(** * PacketSockDgram: the UDP header codec and the IPv4/IPv6 read paths

    A shallow embedding of [packet_sock_dgram_udp_linux.go] (package
    [packetsockdgram]) and the properties of its header decoding, payload
    slicing, destination-port filter and [Close].

    Conventions of the embedding:
    - a Go [int] is a [Z]; the additions and subtractions the program performs
      at run time go through [int_add] and [int_sub], which wrap at 64 bits;
    - a [byte] is [Byte.byte], read as a number by [byte_val];
    - a [[]byte] is a [slice]: nil, or its elements together with the spare
      capacity behind them, so that re-slicing up to [cap] behaves as in Go;
    - a run-time panic is an outcome of its own, [Panic], next to [Return];
    - a Go pointer that may be nil is an [option];
    - the kernel's answer to the one receive call of a read is an explicit
      argument, and the descriptor table [Close] acts on is an explicit
      state. *)

From Stdlib Require Import ZArith List Lia Bool String.
From Stdlib Require Import Strings.Byte.
From Stdlib Require DecimalString HexadecimalString DecimalZ DecimalPos.
From Stdlib Require HexadecimalN HexadecimalPos.
From stdpp Require Import base option list gmap sets.

Local Open Scope Z_scope.

(** ** Go run time: outcomes, integers, bytes *)

Inductive panic : Type :=
| IndexOutOfRange
| SliceBoundsOutOfRange
| NilDereference
| TypeAssertionFailed.

Inductive exec (A : Type) : Type :=
| Return (a : A)
| Panic (p : panic).

Arguments Return {A} a.
Arguments Panic {A} p.

#[global] Instance exec_ret : MRet exec := fun A a => Return a.

#[global] Instance exec_bind : MBind exec := fun A B f m =>
  match m with
  | Return a => f a
  | Panic p => Panic p
  end.

(** [*p] on a pointer that may be nil. *)
Definition deref {A : Type} (p : option A) : exec A :=
  match p with
  | Some a => Return a
  | None => Panic NilDereference
  end.

Definition maxInt : Z := 2 ^ 63 - 1.

Definition int_wrap (z : Z) : Z := (z + 2 ^ 63) mod 2 ^ 64 - 2 ^ 63.

Definition int_add (x y : Z) : Z := int_wrap (x + y).

Definition int_sub (x y : Z) : Z := int_wrap (x - y).

Definition byte_val (x : byte) : Z := Z.of_N (Byte.to_N x).

(** ** Slices of bytes *)

Inductive slice : Type :=
| SliceNil
| Slice (elems : list byte) (spare : list byte).

Definition is_nil (b : slice) : bool :=
  match b with
  | SliceNil => true
  | Slice _ _ => false
  end.

Definition elems_of (b : slice) : list byte :=
  match b with
  | SliceNil => []
  | Slice elems _ => elems
  end.

(** The array cells from the start of the slice up to its capacity. *)
Definition cells_of (b : slice) : list byte :=
  match b with
  | SliceNil => []
  | Slice elems spare => elems ++ spare
  end.

Definition len (b : slice) : Z := Z.of_nat (length (elems_of b)).

Definition cap (b : slice) : Z := Z.of_nat (length (cells_of b)).

(** [b[i]]: panics unless [0 <= i < len(b)]. *)
Definition index (b : slice) (i : Z) : exec byte :=
  if (0 <=? i) && (i <? len b) then
    match elems_of b !! Z.to_nat i with
    | Some x => Return x
    | None => Panic IndexOutOfRange
    end
  else Panic IndexOutOfRange.

(** [b[lo:hi]]: panics unless [0 <= lo <= hi <= cap(b)]; a nil slice stays
    nil. *)
Definition reslice (b : slice) (lo hi : Z) : exec slice :=
  if (0 <=? lo) && (lo <=? hi) && (hi <=? cap b) then
    match b with
    | SliceNil => Return SliceNil
    | Slice _ _ =>
        Return (Slice (take (Z.to_nat (hi - lo)) (drop (Z.to_nat lo) (cells_of b)))
                      (drop (Z.to_nat hi) (cells_of b)))
    end
  else Panic SliceBoundsOutOfRange.

(** [b[lo:]]: the upper bound defaults to [len(b)]. *)
Definition reslice_from (b : slice) (lo : Z) : exec slice :=
  reslice b lo (len b).

(** ** encoding/binary *)

Module binary.

(** [binary.BigEndian.Uint16]: [_ = b[1]; uint16(b[1]) | uint16(b[0])<<8],
    the shift wrapping at 16 bits. *)
Definition BigEndian_Uint16 (b : slice) : exec Z :=
  _ ← index b 1;
  b1 ← index b 1;
  b0 ← index b 0;
  mret (Z.lor (byte_val b1) (Z.land (Z.shiftl (byte_val b0) 8) 0xffff)).

End binary.

(** ** Package errors *)

Inductive error : Type :=
| ErrNotDestPort
| ErrInvalidConn
| ErrMissingAddress
| ErrNilHeader
| ErrHeaderTooShort
| ErrNotIpv4
| ErrNotIpv6
| ErrPayloadLen
| Errno (e : Z)               (* a [syscall.Errno] *)
| ErrForeign (msg : string).  (* an error value of golang.org/x/net *)

(** ** header *)

Definition UDPHeaderLen : Z := 8.

Record UdpHeader : Type := mkUdpHeader {
  SourcePort : Z;
  DestinationPort : Z;
  Length : Z;
  Checksum : Z
}.

(** RFC 768 *)
Definition ParseUDPHeader (b : slice) : exec (option UdpHeader * option error) :=
  if is_nil b then mret (None, Some ErrNilHeader)
  else if len b <? UDPHeaderLen then mret (None, Some ErrHeaderTooShort)
  else
    b01 ← reslice b 0 2;
    sourcePort ← binary.BigEndian_Uint16 b01;
    b23 ← reslice b 2 4;
    destinationPort ← binary.BigEndian_Uint16 b23;
    b45 ← reslice b 4 6;
    length ← binary.BigEndian_Uint16 b45;
    b67 ← reslice b 6 8;
    checksum ← binary.BigEndian_Uint16 b67;
    mret (Some {| SourcePort := sourcePort;
                  DestinationPort := destinationPort;
                  Length := length;
                  Checksum := checksum |}, None).

(** The number a big-endian 16-bit field at offset [off] of [l] denotes,
    written arithmetically; bytes that are not there count as zero. *)
Definition be16_at (l : list byte) (off : nat) : Z :=
  256 * byte_val (default x00 (l !! off)) + byte_val (default x00 (l !! S off)).

(** The UDP header the eight bytes at offset [off] of [l] denote. *)
Definition udp_header_at (l : list byte) (off : nat) : UdpHeader :=
  {| SourcePort := be16_at l off;
     DestinationPort := be16_at l (off + 2);
     Length := be16_at l (off + 4);
     Checksum := be16_at l (off + 6) |}.

(** ** syscall: socket addresses, the receive call, the descriptor table *)

Module syscall.

Record SockaddrInet4 : Type := mkSockaddrInet4 {
  Port4 : Z;
  Addr4 : list byte
}.

Record SockaddrInet6 : Type := mkSockaddrInet6 {
  Port6 : Z;
  ZoneId6 : Z;
  Addr6 : list byte
}.

(** The interface [syscall.Sockaddr]: nil, a [*SockaddrInet4], a
    [*SockaddrInet6], or a value of another dynamic type. *)
Inductive Sockaddr : Type :=
| SockaddrNone
| Inet4 (a : SockaddrInet4)
| Inet6 (a : SockaddrInet6)
| SockaddrOther.

Definition MSG_TRUNC : Z := 0x20.

Definition EBADF : Z := 9.

(** What the kernel has for one receive call on the socket: a failure with
    an errno, or a datagram. *)
Inductive recv_reply : Type :=
| RecvFails (e : Z)
| RecvDatagram (d : list byte).

(** The buffer after the kernel copied as much of [d] as fits into it. *)
Definition fill (p : slice) (d : list byte) : slice :=
  match p with
  | SliceNil => SliceNil
  | Slice elems spare =>
      Slice (take (length elems) d ++ drop (length d) elems) spare
  end.

(** [syscall.Recvfrom(fd, p, flags)]: the count, the buffer as the call
    leaves it, and the error.  With [MSG_TRUNC] the count is the real
    length of the datagram, also when it is longer than the buffer. *)
Definition Recvfrom (reply : recv_reply) (fd : Z) (p : slice) (flags : Z)
  : Z * slice * option error :=
  match reply with
  | RecvFails e => (-1, p, Some (Errno e))
  | RecvDatagram d =>
      let n := if Z.testbit flags 5 then Z.of_nat (length d)
               else Z.min (len p) (Z.of_nat (length d)) in
      (n, fill p d, None)
  end.

(** [syscall.Close(fd)] on the table of open descriptors. *)
Definition Close (fd : Z) (open : gset Z) : option error * gset Z :=
  if decide (fd ∈ open) then (None, open ∖ {[fd]})
  else (Some (Errno EBADF), open).

Fixpoint lowest_free_from (fuel : nat) (i : Z) (open : gset Z) : Z :=
  match fuel with
  | O => i
  | S fuel' =>
      if decide (i ∈ open) then lowest_free_from fuel' (i + 1) open else i
  end.

(** [syscall.Socket(...)] when it succeeds: the lowest descriptor that is
    not open. *)
Definition Socket (open : gset Z) : Z * gset Z :=
  let fd := lowest_free_from (size open) 0 open in
  (fd, open ∪ {[fd]}).

Definition AF_PACKET : Z := 0x11.

Definition SOCK_DGRAM : Z := 0x2.

Definition ETH_P_IP : Z := 0x800.

Definition ETH_P_IPV6 : Z := 0x86dd.

Definition ENOENT : Z := 0x2.

Record RawSockaddrLinklayer : Type := mkRawSockaddrLinklayer {
  Family : Z;
  Protocol : Z;
  Ifindex : Z;
  Hatype : Z;
  Pkttype : Z;
  Halen : Z;
  Addr : list byte
}.

End syscall.

(** ** golang.org/x/net/ipv4 and ipv6

    The two header decoders are external to this repository.  The read paths
    below take them as parameters, and the general statements hold for every
    decoder; the definitions [ParseHeader] here follow the library (on Linux)
    and serve to run the read paths on concrete frames. *)

Module ipv4.

Definition HeaderLen : Z := 20.

Record Header : Type := mkHeader {
  Version : Z;
  Len : Z;
  TOS : Z;
  TotalLen : Z;
  ID : Z;
  Flags : Z;
  FragOff : Z;
  TTL : Z;
  Protocol : Z;
  Checksum : Z;
  Src : list byte;
  Dst : list byte;
  Options : list byte
}.

Definition errNilHeader : string := "nil header".

Definition errHeaderTooShort : string := "header too short".

Definition errExtHeaderTooShort : string := "extension header too short".

Definition v4InV6Prefix : list byte :=
  [x00; x00; x00; x00; x00; x00; x00; x00; x00; x00; xff; xff].

Definition ParseHeader (b : slice) : exec (option Header * option string) :=
  if is_nil b then mret (None, Some errNilHeader)
  else if len b <? HeaderLen then mret (None, Some errHeaderTooShort)
  else
    b0 ← index b 0;
    let hdrlen := Z.shiftl (Z.land (byte_val b0) 0x0f) 2 in
    if len b <? hdrlen then mret (None, Some errExtHeaderTooShort)
    else
      b1 ← index b 1;
      b24 ← reslice b 2 4;
      totalLen ← binary.BigEndian_Uint16 b24;
      b46 ← reslice b 4 6;
      id ← binary.BigEndian_Uint16 b46;
      b68 ← reslice b 6 8;
      fragOff ← binary.BigEndian_Uint16 b68;
      b8 ← index b 8;
      b9 ← index b 9;
      b1012 ← reslice b 10 12;
      checksum ← binary.BigEndian_Uint16 b1012;
      src ← reslice b 12 16;
      dst ← reslice b 16 20;
      options ← (if 0 <? hdrlen - HeaderLen
                 then reslice b HeaderLen hdrlen
                 else mret SliceNil);
      mret (Some {| Version := Z.shiftr (byte_val b0) 4;
                    Len := hdrlen;
                    TOS := byte_val b1;
                    TotalLen := totalLen;
                    ID := id;
                    Flags := Z.shiftr (Z.land fragOff 0xe000) 13;
                    FragOff := Z.land fragOff 0x1fff;
                    TTL := byte_val b8;
                    Protocol := byte_val b9;
                    Checksum := checksum;
                    Src := v4InV6Prefix ++ elems_of src;
                    Dst := v4InV6Prefix ++ elems_of dst;
                    Options := elems_of options |}, None).

End ipv4.

Module ipv6.

Definition HeaderLen : Z := 40.

Record Header : Type := mkHeader {
  Version : Z;
  TrafficClass : Z;
  FlowLabel : Z;
  PayloadLen : Z;
  NextHeader : Z;
  HopLimit : Z;
  Src : list byte;
  Dst : list byte
}.

Definition errHeaderTooShort : string := "header too short".

Definition ParseHeader (b : slice) : exec (option Header * option string) :=
  if len b <? HeaderLen then mret (None, Some errHeaderTooShort)
  else
    b0 ← index b 0;
    b1 ← index b 1;
    b2 ← index b 2;
    b3 ← index b 3;
    b46 ← reslice b 4 6;
    payloadLen ← binary.BigEndian_Uint16 b46;
    b6 ← index b 6;
    b7 ← index b 7;
    src ← reslice b 8 24;
    dst ← reslice b 24 40;
    mret (Some {| Version := Z.shiftr (byte_val b0) 4;
                  TrafficClass :=
                    Z.lor (Z.shiftl (Z.land (byte_val b0) 0x0f) 4)
                          (Z.shiftr (byte_val b1) 4);
                  FlowLabel :=
                    Z.lor (Z.lor (Z.shiftl (Z.land (byte_val b1) 0x0f) 16)
                                 (Z.shiftl (byte_val b2) 8))
                          (byte_val b3);
                  PayloadLen := payloadLen;
                  NextHeader := byte_val b6;
                  HopLimit := byte_val b7;
                  Src := elems_of src;
                  Dst := elems_of dst |}, None).

End ipv6.

Record IpHeader : Type := mkIpHeader {
  Ipv4Header : option ipv4.Header;
  Ipv6Header : option ipv6.Header
}.

(** ** packet *)

Record handler : Type := mkHandler {
  fd : Z;
  sa : syscall.Sockaddr;
  isIpv4 : bool
}.

(** The method receives a [*handler]. *)
Definition ok (c : option handler) : bool :=
  match c with
  | Some _ => true
  | None => false
  end.

(** The five results [(n, h, uh, p, err)] of a read. *)
Record results : Type := Results {
  res_n : Z;
  res_iph : option IpHeader;
  res_uh : option UdpHeader;
  res_p : slice;
  res_err : option error
}.

(** The type assertions of [hdl.sa] to a pointer to [SockaddrInet4] and to
    [SockaddrInet6]. *)
Definition assert_Inet4 (s : syscall.Sockaddr) : exec syscall.SockaddrInet4 :=
  match s with
  | syscall.Inet4 a => Return a
  | _ => Panic TypeAssertionFailed
  end.

Definition assert_Inet6 (s : syscall.Sockaddr) : exec syscall.SockaddrInet6 :=
  match s with
  | syscall.Inet6 a => Return a
  | _ => Panic TypeAssertionFailed
  end.

(** The closure [payloadlen := func() int { ... }()] of the IPv4 path. *)
Definition payloadlen_ipv4 (b : slice) (ipv4h : option ipv4.Header)
    (totalHeaderlen : Z) : exec Z :=
  let lb := len b in
  h ← deref ipv4h;
  if ipv4.TotalLen h <? lb then mret (int_sub (ipv4.TotalLen h) totalHeaderlen)
  else mret (int_sub lb totalHeaderlen).

Section ReadPaths.

Variable ipv4_ParseHeader : slice -> exec (option ipv4.Header * option string).
Variable ipv6_ParseHeader : slice -> exec (option ipv6.Header * option string).

Definition readFromIpv4 (hdl : handler) (b : slice)
    (reply : syscall.recv_reply) : exec results :=
  let '(n, b, err) := syscall.Recvfrom reply (fd hdl) b syscall.MSG_TRUNC in
  match err with
  | Some e => mret (Results (-1) None None SliceNil (Some e))
  | None =>
      b0 ← index b 0;
      if negb (Byte.eqb b0 x45) then
        mret (Results n None None SliceNil (Some ErrNotIpv4))
      else
        let totalHeaderlen := 20 + UDPHeaderLen in
        if n <? totalHeaderlen then
          mret (Results n None None SliceNil (Some ErrHeaderTooShort))
        else
          '(ipv4h, err) ← ipv4_ParseHeader b;
          match err with
          | Some e => mret (Results n None None SliceNil (Some (ErrForeign e)))
          | None =>
              let iph := {| Ipv4Header := ipv4h; Ipv6Header := None |} in
              b20 ← reslice_from b 20;
              '(uh, err) ← ParseUDPHeader b20;
              match err with
              | Some e => mret (Results n (Some iph) None SliceNil (Some e))
              | None =>
                  payloadlen ← payloadlen_ipv4 b ipv4h totalHeaderlen;
                  pb ← reslice b totalHeaderlen
                               (int_add totalHeaderlen payloadlen);
                  a ← assert_Inet4 (sa hdl);
                  let rcvport := syscall.Port4 a in
                  u ← deref uh;
                  if negb (rcvport =? DestinationPort u) then
                    mret (Results n (Some iph) uh pb (Some ErrNotDestPort))
                  else
                    mret (Results n (Some iph) uh pb None)
              end
          end
  end.

Definition readFromIpv6 (hdl : handler) (b : slice)
    (reply : syscall.recv_reply) : exec results :=
  let '(n, b, err) := syscall.Recvfrom reply (fd hdl) b syscall.MSG_TRUNC in
  match err with
  | Some e => mret (Results (-1) None None SliceNil (Some e))
  | None =>
      b0 ← index b 0;
      if negb (Byte.eqb b0 x60) then
        mret (Results n None None SliceNil (Some ErrNotIpv6))
      else
        '(ipv6h, err) ← ipv6_ParseHeader b;
        match err with
        | Some e => mret (Results n None None SliceNil (Some (ErrForeign e)))
        | None =>
            let iph := {| Ipv4Header := None; Ipv6Header := ipv6h |} in
            let startudp6h := ipv6.HeaderLen in
            let endudp6h := int_add startudp6h UDPHeaderLen in
            b40 ← reslice_from b startudp6h;
            '(uh, err) ← ParseUDPHeader b40;
            match err with
            | Some e => mret (Results n (Some iph) None SliceNil (Some e))
            | None =>
                h ← deref ipv6h;
                let m := int_add ipv6.HeaderLen (ipv6.PayloadLen h) in
                if negb (n =? m) then
                  mret (Results n (Some iph) None SliceNil (Some ErrPayloadLen))
                else
                  pb ← reslice b endudp6h n;
                  a ← assert_Inet6 (sa hdl);
                  let rcvport := syscall.Port6 a in
                  u ← deref uh;
                  if negb (rcvport =? DestinationPort u) then
                    mret (Results n (Some iph) uh pb (Some ErrNotDestPort))
                  else
                    mret (Results n (Some iph) uh pb None)
            end
        end
  end.

Definition readfrom (hdl : option handler) (b : slice)
    (reply : syscall.recv_reply) : exec results :=
  match hdl with
  | None => mret (Results (-1) None None SliceNil (Some ErrInvalidConn))
  | Some h =>
      if isIpv4 h then readFromIpv4 h b reply else readFromIpv6 h b reply
  end.

(** A frame that passes the version, length, IP-header and UDP-header
    checks of the IPv4 path, in this order; [b] is the buffer as the receive
    call left it and [n] the count it returned. *)
Definition passes_ipv4_checks (b : slice) (n : Z) (h : ipv4.Header)
    (uh : UdpHeader) : Prop :=
  index b 0 = Return x45 /\
  20 + UDPHeaderLen <= n /\
  ipv4_ParseHeader b = Return (Some h, None) /\
  reslice_from b 20 ≫= ParseUDPHeader = Return (Some uh, None).

(** A frame that reaches the length-consistency check of the IPv6 path:
    the version check passed and both headers were decoded. *)
Definition reaches_ipv6_length_check (b : slice) (h : ipv6.Header)
    (uh : UdpHeader) : Prop :=
  index b 0 = Return x60 /\
  ipv6_ParseHeader b = Return (Some h, None) /\
  reslice_from b ipv6.HeaderLen ≫= ParseUDPHeader = Return (Some uh, None).

(** Correctly formed frames: the checks pass, the declared lengths are
    16-bit values that cover the two headers, and the slice expression of
    the payload lies within the buffer. *)
Definition well_formed_ipv4 (b : slice) (n : Z) (h : ipv4.Header)
    (uh : UdpHeader) : Prop :=
  passes_ipv4_checks b n h uh /\
  28 <= ipv4.TotalLen h <= 65535 /\
  len b <= maxInt.

Definition well_formed_ipv6 (b : slice) (n : Z) (h : ipv6.Header)
    (uh : UdpHeader) : Prop :=
  reaches_ipv6_length_check b h uh /\
  8 <= ipv6.PayloadLen h <= 65535 /\
  n = 40 + ipv6.PayloadLen h /\
  n <= cap b.

End ReadPaths.

(** ** endpoint *)

Record Conn : Type := mkConn {
  Conn_fd : Z;
  Conn_sa : syscall.Sockaddr;
  Conn_isIpv4 : bool;
  Conn_handler : handler
}.

(** [&c.handler]: the address of the embedded value, nil for no [c]. *)
Definition handler_of (c : option Conn) : exec (option handler) :=
  c' ← deref c;
  mret (Some (Conn_handler c')).

Definition Close (c : option Conn) (open : gset Z)
    : exec (option error * gset Z) :=
  hdl ← handler_of c;
  if negb (ok hdl) then mret (Some ErrInvalidConn, open)
  else
    c' ← deref c;
    mret (syscall.Close (Conn_fd c') open).


(** ** Concrete readers, buffers and frames *)

(** An IPv4 reader and an IPv6 reader, both bound to port 53 on descriptor 3. *)
Definition reader4 : handler :=
  mkHandler 3 (syscall.Inet4 (syscall.mkSockaddrInet4 53 [x0a; x00; x00; x01])) true.

Definition reader6 : handler :=
  mkHandler 3 (syscall.Inet6 (syscall.mkSockaddrInet6 53 0 (replicate 16 x00))) false.

Definition conn4 : Conn := mkConn 3 (sa reader4) true reader4.

(** A caller buffer of 64 bytes that still holds [0xff] from earlier use. *)
Definition buffer64 : slice := Slice (replicate 64 xff) [].

(** The eight bytes of a UDP header: source 53, destination [dport], length
    16, checksum 0. *)
Definition udp_bytes (dport : byte) : list byte :=
  [x00; x35; x00; dport; x00; x10; x00; x00].

(** An IPv4 frame: first byte [b0], declared total length [tl] (one byte is
    enough here), the UDP header, and [extra] payload bytes [0xaa]. *)
Definition frame4 (b0 tl dport : byte) (extra : nat) : list byte :=
  [b0; x00; x00; tl] ++ replicate 16 x00 ++ udp_bytes dport ++ replicate extra xaa.

(** An IPv6 frame: first byte [b0], declared payload length [pl], the UDP
    header, and [extra] payload bytes [0xaa]. *)
Definition frame6 (b0 pl dport : byte) (extra : nat) : list byte :=
  [b0; x00; x00; x00; x00; pl] ++ replicate 34 x00 ++ udp_bytes dport ++
  replicate extra xaa.

(** The headers the external decoders produce for [frame4] and [frame6] with
    first bytes [0x45] and [0x60]. *)
Definition header4 (totalLen : Z) : ipv4.Header :=
  {| ipv4.Version := 4; ipv4.Len := 20; ipv4.TOS := 0;
     ipv4.TotalLen := totalLen; ipv4.ID := 0; ipv4.Flags := 0;
     ipv4.FragOff := 0; ipv4.TTL := 0; ipv4.Protocol := 0;
     ipv4.Checksum := 0;
     ipv4.Src := ipv4.v4InV6Prefix ++ replicate 4 x00;
     ipv4.Dst := ipv4.v4InV6Prefix ++ replicate 4 x00;
     ipv4.Options := [] |}.

Definition header6 (payloadLen : Z) : ipv6.Header :=
  {| ipv6.Version := 6; ipv6.TrafficClass := 0; ipv6.FlowLabel := 0;
     ipv6.PayloadLen := payloadLen; ipv6.NextHeader := 0;
     ipv6.HopLimit := 0;
     ipv6.Src := replicate 16 x00;
     ipv6.Dst := replicate 16 x00 |}.

(** ** helper: byte order *)

Definition uint16_wrap (z : Z) : Z := z mod 2 ^ 16.

(** The conversion [int32(x)]. *)
Definition int32_wrap (z : Z) : Z := (z + 2 ^ 31) mod 2 ^ 32 - 2 ^ 31.

(** [(host&0xff)<<8 | (host >> 8)] on [uint16]. *)
Definition htons (host : Z) : Z :=
  Z.lor (uint16_wrap (Z.shiftl (Z.land host 0xff) 8)) (Z.shiftr host 8).

(** ** endpoint: construction and the exported read *)

Module net.

Record Interface : Type := mkInterface {
  Index : Z;
  MTU : Z;
  Name : string
}.

End net.

(** What the system answers to the calls of [newConn]: the interface a name
    resolves to (none when the lookup fails), the errno of a socket call that
    fails, and the errno of the bind call (0 when it succeeds). *)
Record sysenv : Type := mkSysenv {
  InterfaceByName : string -> option net.Interface;
  socket_errno : Z -> Z -> Z -> option Z;
  bind_errno : Z -> syscall.RawSockaddrLinklayer -> Z
}.

(** [syscall.Socket(domain, typ, proto)] with its failure. *)
Definition syscall_Socket (env : sysenv) (domain typ proto : Z)
    (open : gset Z) : Z * option error * gset Z :=
  match socket_errno env domain typ proto with
  | Some e => (-1, Some (Errno e), open)
  | None => let '(fd, open') := syscall.Socket open in (fd, None, open')
  end.

(** [errors.Is(err, os.ErrNotExist)]: of the error values of this program
    only the errno [ENOENT] matches. *)
Definition errors_Is_ErrNotExist (err : option error) : bool :=
  match err with
  | Some (Errno e) => e =? syscall.ENOENT
  | _ => false
  end.

Definition newConn (env : sysenv) (sa : syscall.Sockaddr) (isIpv4 : bool)
    (ifname : string) (open : gset Z)
    : exec (option Conn * option error * gset Z) :=
  let ethP := if isIpv4 then syscall.ETH_P_IP else syscall.ETH_P_IPV6 in
  let intf := InterfaceByName env ifname in
  let '(fd, err, open) :=
    syscall_Socket env syscall.AF_PACKET syscall.SOCK_DGRAM ethP open in
  match err with
  | Some e => mret (None, Some e, open)
  | None =>
      i ← deref intf;
      let sll := {| syscall.Family := syscall.AF_PACKET;
                    syscall.Protocol := htons (uint16_wrap ethP);
                    syscall.Ifindex := int32_wrap (net.Index i);
                    syscall.Hatype := 0;
                    syscall.Pkttype := 0;
                    syscall.Halen := 0;
                    syscall.Addr := replicate 8 x00 |} in
      let err := Some (Errno (bind_errno env fd sll)) in
      if errors_Is_ErrNotExist err then mret (None, err, open)
      else
        mret (Some {| Conn_fd := fd;
                      Conn_sa := sa;
                      Conn_isIpv4 := isIpv4;
                      Conn_handler := mkHandler fd sa isIpv4 |}, None, open)
  end.

Definition NewConn (env : sysenv) (sa : syscall.Sockaddr) (ifname : string)
    (open : gset Z) : exec (option Conn * option error * gset Z) :=
  let isIpv4 :=
    match sa with
    | syscall.Inet4 _ => true
    | syscall.Inet6 _ => false
    | _ => false
    end in
  newConn env sa isIpv4 ifname open.

Section Endpoint.

Variable ipv4_ParseHeader : slice -> exec (option ipv4.Header * option string).
Variable ipv6_ParseHeader : slice -> exec (option ipv6.Header * option string).

Definition Readfrom_ (c : option Conn) (b : slice)
    (reply : syscall.recv_reply) : exec results :=
  hdl ← handler_of c;
  readfrom ipv4_ParseHeader ipv6_ParseHeader hdl b reply.

End Endpoint.

(** ** The wire format of a UDP header

    The eight bytes RFC 768 prescribes for a header: each field as two bytes,
    the high one first.  The program has no encoder; this one states what the
    decoder inverts. *)

Definition byte_of_Z (z : Z) : byte :=
  default x00 (Byte.of_N (Z.to_N (z mod 256))).

Definition be16_bytes (z : Z) : list byte :=
  [byte_of_Z (z / 256); byte_of_Z z].

Definition udp_header_bytes (h : UdpHeader) : list byte :=
  be16_bytes (SourcePort h) ++ be16_bytes (DestinationPort h) ++
  be16_bytes (Length h) ++ be16_bytes (Checksum h).

Definition is_uint16 (z : Z) : Prop := 0 <= z <= 65535.

(** The ethertype [newConn] asks the socket for, and the link-layer address
    it hands to bind: family [AF_PACKET], the ethertype in network byte
    order, the index of the interface. *)
Definition ethertype (isIpv4 : bool) : Z :=
  if isIpv4 then syscall.ETH_P_IP else syscall.ETH_P_IPV6.

Definition bind_address (isIpv4 : bool) (i : net.Interface)
    : syscall.RawSockaddrLinklayer :=
  {| syscall.Family := 17;
     syscall.Protocol := if isIpv4 then 0x0008 else 0xdd86;
     syscall.Ifindex := int32_wrap (net.Index i);
     syscall.Hatype := 0;
     syscall.Pkttype := 0;
     syscall.Halen := 0;
     syscall.Addr := replicate 8 x00 |}.

(** An environment in which only the interface [eth0] exists, with index 2,
    every socket call answers [socket_answer] (an errno, or success) and
    every bind answers the errno [bind_answer]. *)
Definition env_eth0 (socket_answer : option Z) (bind_answer : Z) : sysenv :=
  {| InterfaceByName := fun name =>
       if String.eqb name "eth0" then Some (net.mkInterface 2 1500 "eth0")
       else None;
     socket_errno := fun _ _ _ => socket_answer;
     bind_errno := fun _ _ => bind_answer |}.

(** Readers whose address is not of the family of their path. *)
Definition reader4_wrong_address : handler := mkHandler 3 (sa reader6) true.

Definition reader6_no_address : handler := mkHandler 3 syscall.SockaddrNone false.

(** ** header: printing *)

Module fmt.

(** The verb [%d] on an [int]. *)
Definition d (z : Z) : string :=
  DecimalString.NilZero.string_of_int (Z.to_int z).

(** The verb [%#x] on an [int]: the sign, [0x], the digits in lower case. *)
Definition sharp_x (z : Z) : string :=
  let digits n :=
    HexadecimalString.NilZero.string_of_uint (N.to_hex_uint n) in
  if z <? 0 then String.append "-0x" (digits (Z.to_N (- z)))
  else String.append "0x" (digits (Z.to_N z)).

End fmt.

(** The method [String] of a pointer to [UdpHeader]. *)
Definition UdpHeader_String (h : option UdpHeader) : string :=
  match h with
  | None => "<nil>"
  | Some h =>
      ("srcport=" ++ fmt.d (SourcePort h) ++
       " dstport=" ++ fmt.d (DestinationPort h) ++
       " len=" ++ fmt.d (Length h) ++
       " Checksum=" ++ fmt.sharp_x (Checksum h))%string
  end.

(** The character 32. *)
Definition space : Ascii.ascii :=
  Ascii.Ascii false false false false false true false false.

Fixpoint no_space (s : string) : Prop :=
  match s with
  | EmptyString => True
  | String c s' => c <> space /\ no_space s'
  end.

(** ** The outcomes of a read

    Every combination of results a read path can return, by the point at
    which the path returns: [n] is the count of the receive call, and the
    port is the one of the reader's address. *)

Inductive ipv4_outcome (hdl : handler) : syscall.recv_reply -> results -> Prop :=
| ipv4_receive_failed e :
    ipv4_outcome hdl (syscall.RecvFails e)
      (Results (-1) None None SliceNil (Some (Errno e)))
| ipv4_not_ipv4 d :
    ipv4_outcome hdl (syscall.RecvDatagram d)
      (Results (Z.of_nat (length d)) None None SliceNil (Some ErrNotIpv4))
| ipv4_frame_too_short d :
    Z.of_nat (length d) < 28 ->
    ipv4_outcome hdl (syscall.RecvDatagram d)
      (Results (Z.of_nat (length d)) None None SliceNil (Some ErrHeaderTooShort))
| ipv4_decoder_failed d msg :
    28 <= Z.of_nat (length d) ->
    ipv4_outcome hdl (syscall.RecvDatagram d)
      (Results (Z.of_nat (length d)) None None SliceNil (Some (ErrForeign msg)))
| ipv4_udp_too_short d iph :
    28 <= Z.of_nat (length d) ->
    ipv4_outcome hdl (syscall.RecvDatagram d)
      (Results (Z.of_nat (length d)) (Some iph) None SliceNil
               (Some ErrHeaderTooShort))
| ipv4_filtered d iph uh pb a :
    28 <= Z.of_nat (length d) ->
    pb <> SliceNil ->
    sa hdl = syscall.Inet4 a ->
    syscall.Port4 a <> DestinationPort uh ->
    ipv4_outcome hdl (syscall.RecvDatagram d)
      (Results (Z.of_nat (length d)) (Some iph) (Some uh) pb
               (Some ErrNotDestPort))
| ipv4_delivered d iph uh pb a :
    28 <= Z.of_nat (length d) ->
    pb <> SliceNil ->
    sa hdl = syscall.Inet4 a ->
    syscall.Port4 a = DestinationPort uh ->
    ipv4_outcome hdl (syscall.RecvDatagram d)
      (Results (Z.of_nat (length d)) (Some iph) (Some uh) pb None).

Inductive ipv6_outcome (hdl : handler) : syscall.recv_reply -> results -> Prop :=
| ipv6_receive_failed e :
    ipv6_outcome hdl (syscall.RecvFails e)
      (Results (-1) None None SliceNil (Some (Errno e)))
| ipv6_not_ipv6 d :
    ipv6_outcome hdl (syscall.RecvDatagram d)
      (Results (Z.of_nat (length d)) None None SliceNil (Some ErrNotIpv6))
| ipv6_decoder_failed d msg :
    ipv6_outcome hdl (syscall.RecvDatagram d)
      (Results (Z.of_nat (length d)) None None SliceNil (Some (ErrForeign msg)))
| ipv6_udp_too_short d iph :
    ipv6_outcome hdl (syscall.RecvDatagram d)
      (Results (Z.of_nat (length d)) (Some iph) None SliceNil
               (Some ErrHeaderTooShort))
| ipv6_length_mismatch d iph :
    ipv6_outcome hdl (syscall.RecvDatagram d)
      (Results (Z.of_nat (length d)) (Some iph) None SliceNil
               (Some ErrPayloadLen))
| ipv6_filtered d iph uh pb a :
    48 <= Z.of_nat (length d) ->
    pb <> SliceNil ->
    sa hdl = syscall.Inet6 a ->
    syscall.Port6 a <> DestinationPort uh ->
    ipv6_outcome hdl (syscall.RecvDatagram d)
      (Results (Z.of_nat (length d)) (Some iph) (Some uh) pb
               (Some ErrNotDestPort))
| ipv6_delivered d iph uh pb a :
    48 <= Z.of_nat (length d) ->
    pb <> SliceNil ->
    sa hdl = syscall.Inet6 a ->
    syscall.Port6 a = DestinationPort uh ->
    ipv6_outcome hdl (syscall.RecvDatagram d)
      (Results (Z.of_nat (length d)) (Some iph) (Some uh) pb None).

(** * Properties *)

(** ** Integers, bytes and slices *)

Lemma int_wrap_id z : - 2 ^ 63 <= z <= maxInt -> int_wrap z = z.
Proof.
  unfold int_wrap, maxInt. intros H.
  rewrite Z.mod_small by lia. lia.
Qed.

Lemma byte_val_range x : 0 <= byte_val x < 256.
Proof.
  unfold byte_val. pose proof (Byte.to_N_bounded x). lia.
Qed.

(** The shift-and-or of [BigEndian.Uint16] is the positional value. *)
Lemma lor_shiftl8 hi lo :
  0 <= hi < 256 -> 0 <= lo < 256 ->
  Z.lor lo (Z.land (Z.shiftl hi 8) 0xffff) = 256 * hi + lo.
Proof.
  intros Hhi Hlo.
  change 0xffff with (Z.ones 16).
  rewrite Z.land_ones by lia.
  rewrite Z.shiftl_mul_pow2 by lia.
  rewrite Z.mod_small by lia.
  assert (Hdisj : Z.land lo (hi * 2 ^ 8) = 0).
  { apply Z.bits_inj'. intros k Hk.
    rewrite Z.land_spec, Z.bits_0.
    destruct (Z.lt_ge_cases k 8) as [Hlt | Hge].
    - rewrite Z.mul_pow2_bits_low by lia. apply andb_false_r.
    - rewrite <- (Z.mod_small lo (2 ^ 8)) by lia.
      rewrite Z.mod_pow2_bits_high by lia. reflexivity. }
  rewrite <- Z.lxor_lor by exact Hdisj.
  rewrite <- Z.add_nocarry_lxor by exact Hdisj.
  lia.
Qed.

Lemma bind_Return_inv {A B} (m : exec A) (f : A -> exec B) r :
  m ≫= f = Return r -> exists a, m = Return a /\ f a = Return r.
Proof.
  destruct m as [a|p]; cbn [mbind exec_bind]; [eauto | discriminate].
Qed.

Lemma len_Slice l sp : len (Slice l sp) = Z.of_nat (length l).
Proof. reflexivity. Qed.

Lemma len_le_cap b : len b <= cap b.
Proof.
  destruct b as [|l sp]; [reflexivity|].
  unfold len, cap. cbn [elems_of cells_of]. rewrite length_app. lia.
Qed.

Lemma len_pos_not_nil b : 0 < len b -> b <> SliceNil.
Proof. intros H ->. unfold len in H. simpl in H. lia. Qed.

Lemma reslice_Slice l sp lo hi :
  0 <= lo <= hi -> hi <= Z.of_nat (length (l ++ sp)) ->
  reslice (Slice l sp) lo hi =
  Return (Slice (take (Z.to_nat (hi - lo)) (drop (Z.to_nat lo) (l ++ sp)))
                (drop (Z.to_nat hi) (l ++ sp))).
Proof.
  intros H1 H2. unfold reslice, cap. simpl cells_of.
  replace (0 <=? lo) with true by (symmetry; apply Z.leb_le; lia).
  replace (lo <=? hi) with true by (symmetry; apply Z.leb_le; lia).
  replace (hi <=? _) with true by (symmetry; apply Z.leb_le; lia).
  reflexivity.
Qed.

Lemma reslice_in_range b lo hi :
  b <> SliceNil -> 0 <= lo <= hi -> hi <= cap b ->
  exists pb, reslice b lo hi = Return pb /\ len pb = hi - lo.
Proof.
  intros Hb Hlo Hhi.
  destruct b as [|l sp]; [congruence|].
  unfold cap in Hhi. cbn [cells_of] in Hhi.
  eexists. split.
  - apply reslice_Slice; lia.
  - unfold len. cbn [elems_of]. rewrite length_take, length_drop. lia.
Qed.

Lemma reslice_from_Slice l sp (lo : nat) :
  (lo <= length l)%nat ->
  reslice_from (Slice l sp) (Z.of_nat lo) = Return (Slice (drop lo l) sp).
Proof.
  intros H. unfold reslice_from. rewrite len_Slice.
  rewrite reslice_Slice by (rewrite ?length_app; lia).
  rewrite !Nat2Z.id.
  replace (Z.to_nat (Z.of_nat (length l) - Z.of_nat lo))
    with (length l - lo)%nat by lia.
  rewrite drop_app_le by exact H.
  rewrite take_app_length' by (rewrite length_drop; reflexivity).
  rewrite drop_app_length. reflexivity.
Qed.

(** ** The receive call *)

Lemma Recvfrom_datagram d fd p :
  syscall.Recvfrom (syscall.RecvDatagram d) fd p syscall.MSG_TRUNC =
  (Z.of_nat (length d), syscall.fill p d, None).
Proof. reflexivity. Qed.

Lemma len_fill b d : len (syscall.fill b d) = len b.
Proof.
  destruct b as [|l sp]; [reflexivity|].
  unfold len. cbn [syscall.fill elems_of].
  rewrite length_app, length_take, length_drop. lia.
Qed.

(** ** The UDP header codec *)

Lemma Uint16_pair x y sp :
  binary.BigEndian_Uint16 (Slice [x; y] sp) =
  Return (256 * byte_val x + byte_val y).
Proof.
  unfold binary.BigEndian_Uint16. simpl.
  f_equal. apply lor_shiftl8; apply byte_val_range.
Qed.

Lemma ParseUDPHeader_short l sp :
  (length l < 8)%nat ->
  ParseUDPHeader (Slice l sp) = Return (None, Some ErrHeaderTooShort).
Proof.
  intros H. unfold ParseUDPHeader. cbn [is_nil]. rewrite len_Slice.
  replace (Z.of_nat (length l) <? UDPHeaderLen) with true; [reflexivity|].
  symmetry. apply Z.ltb_lt. unfold UDPHeaderLen. lia.
Qed.

Lemma ParseUDPHeader_decodes l sp :
  (8 <= length l)%nat ->
  ParseUDPHeader (Slice l sp) = Return (Some (udp_header_at l 0), None).
Proof.
  intros H.
  do 8 (destruct l as [|? l]; [simpl in H; lia|]).
  unfold ParseUDPHeader. cbn [is_nil]. rewrite len_Slice.
  replace (Z.of_nat _ <? UDPHeaderLen) with false
    by (symmetry; apply Z.ltb_ge; unfold UDPHeaderLen; simpl length; lia).
  rewrite !reslice_Slice by (rewrite ?length_app; simpl length; lia).
  repeat match goal with
         | |- context [Z.to_nat ?z] =>
             let k := eval vm_compute in (Z.to_nat z) in
             change (Z.to_nat z) with k
         end.
  cbn [firstn skipn app mbind exec_bind]. rewrite ?take_0, ?drop_0.
  cbn [mbind exec_bind].
  rewrite Uint16_pair. cbn [mbind exec_bind].
  rewrite Uint16_pair. cbn [mbind exec_bind].
  rewrite Uint16_pair. cbn [mbind exec_bind].
  rewrite Uint16_pair. reflexivity.
Qed.

Lemma ParseUDPHeader_error b uh e :
  ParseUDPHeader b = Return (uh, Some e) ->
  uh = None /\ (e = ErrNilHeader /\ b = SliceNil \/
                e = ErrHeaderTooShort /\ b <> SliceNil /\ len b < 8).
Proof.
  destruct b as [|l sp].
  - intros [= <- <-]. auto.
  - destruct (Nat.lt_ge_cases (length l) 8) as [Hs | Hl].
    + rewrite ParseUDPHeader_short by exact Hs. intros [= <- <-].
      split; [reflexivity|]. right. rewrite len_Slice.
      repeat split; [discriminate | lia].
    + rewrite ParseUDPHeader_decodes by exact Hl. discriminate.
Qed.

Lemma be16_at_drop l (k off : nat) :
  be16_at (drop k l) off = be16_at l (k + off).
Proof.
  unfold be16_at. rewrite !lookup_drop.
  replace (k + S off)%nat with (S (k + off)) by lia. reflexivity.
Qed.

Lemma udp_header_at_drop l (k : nat) :
  udp_header_at (drop k l) 0 = udp_header_at l k.
Proof.
  unfold udp_header_at. rewrite !be16_at_drop.
  rewrite Nat.add_0_r. reflexivity.
Qed.

(** Slicing off the region behind an IP header of [off] bytes and decoding
    it. *)
Lemma ParseUDPHeader_at b (off : nat) :
  Z.of_nat off + 8 <= len b ->
  reslice_from b (Z.of_nat off) ≫= ParseUDPHeader =
  Return (Some (udp_header_at (elems_of b) off), None).
Proof.
  intros H. destruct b as [|l sp].
  - unfold len in H. simpl in H. lia.
  - rewrite len_Slice in H.
    rewrite reslice_from_Slice by lia. cbn [mbind exec_bind].
    rewrite ParseUDPHeader_decodes by (rewrite length_drop; lia).
    rewrite udp_header_at_drop. reflexivity.
Qed.

Lemma ParseUDPHeader_at_ok b (off : nat) uh :
  reslice_from b (Z.of_nat off) ≫= ParseUDPHeader = Return (uh, None) ->
  Z.of_nat off + 8 <= len b.
Proof.
  destruct b as [|l sp].
  - unfold reslice_from, reslice.
    destruct (_ && _); cbn [mbind exec_bind]; discriminate.
  - rewrite len_Slice.
    destruct (Nat.le_gt_cases off (length l)) as [Hle | Hgt].
    + rewrite reslice_from_Slice by exact Hle. cbn [mbind exec_bind].
      destruct (Nat.lt_ge_cases (length (drop off l)) 8) as [Hs | Hl].
      * rewrite ParseUDPHeader_short by exact Hs. discriminate.
      * rewrite length_drop in Hl. lia.
    + unfold reslice_from, reslice. rewrite len_Slice.
      replace (Z.of_nat off <=? Z.of_nat (length l)) with false
        by (symmetry; apply Z.leb_gt; lia).
      rewrite andb_false_r. cbn [andb mbind exec_bind]. discriminate.
Qed.

(** C3 (as amended). The codec fails with [ErrNilHeader] exactly for the nil
    buffer; an empty buffer that is not nil fails with [ErrHeaderTooShort];
    neither failure carries a header. *)
Theorem ParseUDPHeader_nil_and_empty :
  ParseUDPHeader SliceNil = Return (None, Some ErrNilHeader) /\
  (forall spare, ParseUDPHeader (Slice [] spare) =
                 Return (None, Some ErrHeaderTooShort)) /\
  (forall b uh, ParseUDPHeader b = Return (uh, Some ErrNilHeader) <->
                b = SliceNil /\ uh = None).
Proof.
  split; [reflexivity|]. split; [reflexivity|].
  intros b uh. split.
  - intros H. destruct (ParseUDPHeader_error b uh _ H) as (-> & [[_ ->] | [? _]]);
      [auto | discriminate].
  - intros [-> ->]. reflexivity.
Qed.

(** C5. A buffer that is not nil and has fewer than 8 bytes fails with
    [ErrHeaderTooShort]; a buffer of at least 8 bytes decodes to the four
    big-endian 16-bit fields at offsets 0, 2, 4 and 6, as the bytes
    [00 35 00 35 00 10 00 00] decode to 53, 53, 16 and 0; a failure carries no
    header.  The codec is a function of the buffer alone. *)
Theorem ParseUDPHeader_spec :
  (forall l sp, (length l < 8)%nat ->
                ParseUDPHeader (Slice l sp) =
                Return (None, Some ErrHeaderTooShort)) /\
  (forall l sp, (8 <= length l)%nat ->
                ParseUDPHeader (Slice l sp) =
                Return (Some {| SourcePort := be16_at l 0;
                                DestinationPort := be16_at l 2;
                                Length := be16_at l 4;
                                Checksum := be16_at l 6 |}, None)) /\
  ParseUDPHeader (Slice [x00; x35; x00; x35; x00; x10; x00; x00] []) =
    Return (Some (mkUdpHeader 53 53 16 0), None) /\
  (forall b uh e, ParseUDPHeader b = Return (uh, Some e) -> uh = None).
Proof.
  split; [exact ParseUDPHeader_short|].
  split; [exact ParseUDPHeader_decodes|].
  split; [reflexivity|].
  intros b uh e H. exact (proj1 (ParseUDPHeader_error b uh e H)).
Qed.

(** ** The read paths, for arbitrary header decoders *)

Lemma payloadlen_ipv4_min b h :
  0 <= ipv4.TotalLen h <= 65535 -> len b <= maxInt ->
  payloadlen_ipv4 b (Some h) 28 = Return (Z.min (ipv4.TotalLen h) (len b) - 28).
Proof.
  intros Ht Hb. unfold payloadlen_ipv4. cbn [deref mbind exec_bind].
  assert (0 <= len b) by (unfold len; lia).
  unfold maxInt in Hb.
  destruct (ipv4.TotalLen h <? len b) eqn:Hlt.
  - apply Z.ltb_lt in Hlt. unfold int_sub.
    rewrite int_wrap_id by (unfold maxInt; lia).
    rewrite Z.min_l by lia. reflexivity.
  - apply Z.ltb_ge in Hlt. unfold int_sub.
    rewrite int_wrap_id by (unfold maxInt; lia).
    rewrite Z.min_r by lia. reflexivity.
Qed.

Section ReadPathProperties.

Variable dec4 : slice -> exec (option ipv4.Header * option string).
Variable dec6 : slice -> exec (option ipv6.Header * option string).

Lemma passes_ipv4_checks_len b n h uh :
  passes_ipv4_checks dec4 b n h uh -> 28 <= len b.
Proof.
  intros (_ & _ & _ & Hudp).
  apply (ParseUDPHeader_at_ok b 20) in Hudp. lia.
Qed.

Lemma reaches_ipv6_length_check_len b h uh :
  reaches_ipv6_length_check dec6 b h uh -> 48 <= len b.
Proof.
  intros (_ & _ & Hudp).
  apply (ParseUDPHeader_at_ok b 40) in Hudp. lia.
Qed.

(** What is left of the IPv4 path once the four checks have passed. *)
Lemma readFromIpv4_past_checks hdl b d h uh :
  passes_ipv4_checks dec4 (syscall.fill b d) (Z.of_nat (length d)) h uh ->
  readFromIpv4 dec4 hdl b (syscall.RecvDatagram d) =
    payloadlen ← payloadlen_ipv4 (syscall.fill b d) (Some h) 28;
    pb ← reslice (syscall.fill b d) 28 (int_add 28 payloadlen);
    a ← assert_Inet4 (sa hdl);
    mret (Results (Z.of_nat (length d))
                  (Some {| Ipv4Header := Some h; Ipv6Header := None |})
                  (Some uh) pb
                  (if syscall.Port4 a =? DestinationPort uh then None
                   else Some ErrNotDestPort)).
Proof.
  intros (H0 & Hn & Hdec & Hudp).
  apply bind_Return_inv in Hudp as (b20 & Hb20 & Hparse).
  unfold readFromIpv4. rewrite Recvfrom_datagram.
  rewrite H0. cbn [mbind exec_bind].
  change (Byte.eqb x45 x45) with true. cbn [negb].
  replace (Z.of_nat (length d) <? 20 + UDPHeaderLen) with false
    by (symmetry; apply Z.ltb_ge; exact Hn).
  rewrite Hdec. cbn [mbind exec_bind].
  rewrite Hb20. cbn [mbind exec_bind].
  rewrite Hparse. cbn [mbind exec_bind].
  change (20 + UDPHeaderLen) with 28.
  destruct (payloadlen_ipv4 _ _ _) as [pl|]; cbn [mbind exec_bind];
    [|reflexivity].
  destruct (reslice _ _ _) as [pb|]; cbn [mbind exec_bind]; [|reflexivity].
  destruct (assert_Inet4 _) as [a|]; cbn [mbind exec_bind deref];
    [|reflexivity].
  destruct (syscall.Port4 a =? DestinationPort uh); reflexivity.
Qed.

(** What is left of the IPv6 path once both headers are decoded. *)
Lemma readFromIpv6_past_checks hdl b d h uh :
  reaches_ipv6_length_check dec6 (syscall.fill b d) h uh ->
  readFromIpv6 dec6 hdl b (syscall.RecvDatagram d) =
    if Z.of_nat (length d) =? int_add 40 (ipv6.PayloadLen h) then
      pb ← reslice (syscall.fill b d) 48 (Z.of_nat (length d));
      a ← assert_Inet6 (sa hdl);
      mret (Results (Z.of_nat (length d))
                    (Some {| Ipv4Header := None; Ipv6Header := Some h |})
                    (Some uh) pb
                    (if syscall.Port6 a =? DestinationPort uh then None
                     else Some ErrNotDestPort))
    else
      mret (Results (Z.of_nat (length d))
                    (Some {| Ipv4Header := None; Ipv6Header := Some h |})
                    None SliceNil (Some ErrPayloadLen)).
Proof.
  intros (H0 & Hdec & Hudp).
  apply bind_Return_inv in Hudp as (b40 & Hb40 & Hparse).
  unfold readFromIpv6. rewrite Recvfrom_datagram.
  rewrite H0. cbn [mbind exec_bind].
  change (Byte.eqb x60 x60) with true. cbn [negb].
  rewrite Hdec. cbn [mbind exec_bind].
  rewrite Hb40. cbn [mbind exec_bind].
  rewrite Hparse. cbn [mbind exec_bind deref].
  change ipv6.HeaderLen with 40.
  change (int_add 40 UDPHeaderLen) with 48.
  destruct (Z.of_nat (length d) =? int_add 40 (ipv6.PayloadLen h));
    cbn [negb]; [|reflexivity].
  destruct (reslice _ _ _) as [pb|]; cbn [mbind exec_bind]; [|reflexivity].
  destruct (assert_Inet6 _) as [a|]; cbn [mbind exec_bind deref];
    [|reflexivity].
  destruct (syscall.Port6 a =? DestinationPort uh); reflexivity.
Qed.


(** C2 (as amended). When the buffer has a first byte after the receive, the
    IPv6 path fails with [ErrNotIpv6], reporting the count and no
    structures, for every first byte other than [0x60]; for [0x60] it does
    not fail with [ErrNotIpv6].  The whole byte is compared, so a top nibble
    of 6 with another low nibble is rejected. *)
Theorem readFromIpv6_version_check hdl b d x :
  index (syscall.fill b d) 0 = Return x ->
  (x <> x60 ->
   readFromIpv6 dec6 hdl b (syscall.RecvDatagram d) =
   Return (Results (Z.of_nat (length d)) None None SliceNil
                   (Some ErrNotIpv6))) /\
  (x = x60 ->
   forall res,
     readFromIpv6 dec6 hdl b (syscall.RecvDatagram d) = Return res ->
     res_err res <> Some ErrNotIpv6).
Proof.
  intros H0. unfold readFromIpv6. rewrite Recvfrom_datagram, H0.
  cbn [mbind exec_bind]. split.
  - intros Hx. destruct (Byte.eqb x x60) eqn:E.
    + apply Byte.byte_dec_bl in E. contradiction.
    + reflexivity.
  - intros -> res. change (Byte.eqb x60 x60) with true. cbn [negb].
    destruct (dec6 _) as [[ipv6h [e|]]|]; cbn [mbind exec_bind];
      try discriminate.
    { intros [= <-]. discriminate. }
    destruct (reslice_from _ _) as [b40|]; cbn [mbind exec_bind];
      try discriminate.
    destruct (ParseUDPHeader b40) as [[uh [e|]]|] eqn:Hp;
      cbn [mbind exec_bind]; try discriminate.
    { intros [= <-]. cbn [res_err].
      destruct (ParseUDPHeader_error _ _ _ Hp) as (_ & [[-> _] | [-> _]]);
        discriminate. }
    destruct ipv6h as [h|]; cbn [deref mbind exec_bind]; try discriminate.
    destruct (negb _).
    { intros [= <-]. discriminate. }
    destruct (reslice _ _ _); cbn [mbind exec_bind]; try discriminate.
    destruct (assert_Inet6 _); cbn [mbind exec_bind]; try discriminate.
    destruct uh as [u|]; cbn [deref mbind exec_bind]; try discriminate.
    destruct (negb _); intros [= <-]; discriminate.
Qed.

(** C6. When the first byte of the buffer after the receive is not [0x45],
    the IPv4 path fails with [ErrNotIpv4] and reports the count of the
    receive call, whatever that count is (also below 28, where the length
    check would fail) and whatever the IP-header decoder would do: neither
    is consulted. *)
Theorem readFromIpv4_version_check hdl b d x :
  index (syscall.fill b d) 0 = Return x ->
  x <> x45 ->
  readFromIpv4 dec4 hdl b (syscall.RecvDatagram d) =
  Return (Results (Z.of_nat (length d)) None None SliceNil (Some ErrNotIpv4)).
Proof.
  intros H0 Hx. unfold readFromIpv4. rewrite Recvfrom_datagram, H0.
  cbn [mbind exec_bind].
  destruct (Byte.eqb x x45) eqn:E.
  - apply Byte.byte_dec_bl in E. contradiction.
  - reflexivity.
Qed.

(** C7 (as amended). Once the IPv6 path has decoded both headers (first
    byte [0x60], a 16-bit declared payload length), a count that differs from
    [40 + declaredPayloadLength], in either direction, fails with
    [ErrPayloadLen] and still returns the decoded IP header, without UDP
    header or payload.  When the two are equal, [48 <= bytesRead <=
    cap(buffer)] and the reader's address is an IPv6 address, the path
    returns both headers and the payload [buffer[48 : bytesRead]], a slice of
    [bytesRead - 48] bytes, with no error other than the outcome of the
    destination-port filter. *)
Theorem readFromIpv6_length_check hdl b d h uh :
  reaches_ipv6_length_check dec6 (syscall.fill b d) h uh ->
  0 <= ipv6.PayloadLen h <= 65535 ->
  let b' := syscall.fill b d in
  let n := Z.of_nat (length d) in
  let iph := {| Ipv4Header := None; Ipv6Header := Some h |} in
  (n <> 40 + ipv6.PayloadLen h ->
   readFromIpv6 dec6 hdl b (syscall.RecvDatagram d) =
   Return (Results n (Some iph) None SliceNil (Some ErrPayloadLen))) /\
  (forall a,
     n = 40 + ipv6.PayloadLen h ->
     48 <= n <= cap b' ->
     sa hdl = syscall.Inet6 a ->
     exists pb,
       reslice b' 48 n = Return pb /\
       len pb = n - 48 /\
       readFromIpv6 dec6 hdl b (syscall.RecvDatagram d) =
       Return (Results n (Some iph) (Some uh) pb
                       (if syscall.Port6 a =? DestinationPort uh then None
                        else Some ErrNotDestPort))).
Proof.
  intros Hchk Hp b' n iph.
  pose proof (reaches_ipv6_length_check_len _ _ _ Hchk) as Hlen.
  rewrite (readFromIpv6_past_checks hdl b d h uh Hchk).
  fold n b'. unfold int_add.
  rewrite int_wrap_id by (unfold maxInt; lia).
  split.
  - intros Hne. apply Z.eqb_neq in Hne. rewrite Hne. reflexivity.
  - intros a Heq Hn Hsa.
    destruct (reslice_in_range b' 48 n) as (pb & Hpb & Hl);
      [apply len_pos_not_nil; fold b' in Hlen; lia | lia | lia |].
    exists pb. split; [exact Hpb|]. split; [exact Hl|].
    apply Z.eqb_eq in Heq. rewrite Heq, Hpb, Hsa. reflexivity.
Qed.

(** C8 (as amended). In both read paths a correctly formed frame whose first
    byte is the one the path insists on, [0x45] in the IPv4 path and [0x60]
    in the IPv6 path, is returned with its decoded IP header, its UDP header
    (the eight bytes behind the IP header) and its payload slice; the error
    is [ErrNotDestPort] when the UDP destination port differs from the port
    of the reader's address, and there is no error when the two ports are
    equal. *)
Theorem destination_port_filter :
  (forall hdl b d h uh a,
     well_formed_ipv4 dec4 (syscall.fill b d) (Z.of_nat (length d)) h uh ->
     sa hdl = syscall.Inet4 a ->
     exists pb,
       reslice (syscall.fill b d) 28
               (Z.min (ipv4.TotalLen h) (len (syscall.fill b d))) =
       Return pb /\
       uh = udp_header_at (elems_of (syscall.fill b d)) 20 /\
       readFromIpv4 dec4 hdl b (syscall.RecvDatagram d) =
       Return (Results (Z.of_nat (length d))
                       (Some {| Ipv4Header := Some h; Ipv6Header := None |})
                       (Some uh) pb
                       (if syscall.Port4 a =? DestinationPort uh then None
                        else Some ErrNotDestPort))) /\
  (forall hdl b d h uh a,
     well_formed_ipv6 dec6 (syscall.fill b d) (Z.of_nat (length d)) h uh ->
     sa hdl = syscall.Inet6 a ->
     exists pb,
       reslice (syscall.fill b d) 48 (Z.of_nat (length d)) = Return pb /\
       uh = udp_header_at (elems_of (syscall.fill b d)) 40 /\
       readFromIpv6 dec6 hdl b (syscall.RecvDatagram d) =
       Return (Results (Z.of_nat (length d))
                       (Some {| Ipv4Header := None; Ipv6Header := Some h |})
                       (Some uh) pb
                       (if syscall.Port6 a =? DestinationPort uh then None
                        else Some ErrNotDestPort))).
Proof.
  split.
  - intros hdl b d h uh a (Hchk & Ht & Hb) Hsa.
    pose proof (passes_ipv4_checks_len _ _ _ _ Hchk) as Hlen.
    pose proof (len_le_cap (syscall.fill b d)) as Hcap.
    set (b' := syscall.fill b d) in *.
    destruct (reslice_in_range b' 28 (Z.min (ipv4.TotalLen h) (len b')))
      as (pb & Hpb & _); [apply len_pos_not_nil; lia | lia | lia |].
    exists pb. split; [exact Hpb|]. split.
    + destruct Hchk as (_ & _ & _ & Hudp).
      pose proof (ParseUDPHeader_at b' 20) as E.
      change (Z.of_nat 20) with 20 in E.
      rewrite E in Hudp by lia. congruence.
    + rewrite (readFromIpv4_past_checks hdl b d h uh Hchk). fold b'.
      rewrite payloadlen_ipv4_min by lia. cbn [mbind exec_bind].
      unfold int_add. rewrite int_wrap_id by (unfold maxInt in *; lia).
      replace (28 + (Z.min (ipv4.TotalLen h) (len b') - 28))
        with (Z.min (ipv4.TotalLen h) (len b')) by lia.
      rewrite Hpb, Hsa. reflexivity.
  - intros hdl b d h uh a (Hchk & Hp & Hn & Hcap) Hsa.
    pose proof (reaches_ipv6_length_check_len _ _ _ Hchk) as Hlen.
    set (b' := syscall.fill b d) in *.
    destruct (reslice_in_range b' 48 (Z.of_nat (length d)))
      as (pb & Hpb & _); [apply len_pos_not_nil; lia | lia | lia |].
    exists pb. split; [exact Hpb|]. split.
    + destruct Hchk as (_ & _ & Hudp).
      pose proof (ParseUDPHeader_at b' 40) as E.
      change (Z.of_nat 40) with ipv6.HeaderLen in E.
      rewrite E in Hudp by (unfold ipv6.HeaderLen; lia). congruence.
    + rewrite (readFromIpv6_past_checks hdl b d h uh Hchk). fold b'.
      unfold int_add. rewrite int_wrap_id by (unfold maxInt; lia).
      apply Z.eqb_eq in Hn. rewrite Hn, Hpb, Hsa. reflexivity.
Qed.

(** C9. Whenever the receive call returns an error, either path, and the
    dispatch on top of them, returns that same error value, the count -1,
    and neither an IP header, nor a UDP header, nor a payload. *)
Theorem receive_error_propagates hdl b reply n b1 err :
  syscall.Recvfrom reply (fd hdl) b syscall.MSG_TRUNC = (n, b1, Some err) ->
  readFromIpv4 dec4 hdl b reply =
    Return (Results (-1) None None SliceNil (Some err)) /\
  readFromIpv6 dec6 hdl b reply =
    Return (Results (-1) None None SliceNil (Some err)) /\
  readfrom dec4 dec6 (Some hdl) b reply =
    Return (Results (-1) None None SliceNil (Some err)).
Proof.
  intros H. unfold readfrom, readFromIpv4, readFromIpv6. rewrite H.
  destruct (isIpv4 hdl); auto.
Qed.

End ReadPathProperties.

(** ** Close *)

(** C4 (as amended). [Close] on a reader that is not nil hands the stored
    descriptor to the operating system's close once and returns its answer
    unchanged: an open descriptor is released and no error is reported, and a
    second [Close] while that descriptor number is still unused reports the
    system's [EBADF].  The reader keeps no record of having been closed. *)
Theorem Close_delegates_to_os c (open : gset Z) :
  Close (Some c) open = Return (syscall.Close (Conn_fd c) open) /\
  (Conn_fd c ∈ open ->
   Close (Some c) open = Return (None, open ∖ {[Conn_fd c]}) /\
   Close (Some c) (open ∖ {[Conn_fd c]}) =
   Return (Some (Errno syscall.EBADF), open ∖ {[Conn_fd c]})).
Proof.
  split; [reflexivity|]. intros Hin.
  unfold Close. cbn [handler_of deref mbind exec_bind ok negb mret exec_ret].
  unfold syscall.Close.
  rewrite decide_True by exact Hin.
  rewrite decide_False.
  - split; reflexivity.
  - intros [_ Hn]%elem_of_difference. apply Hn, elem_of_singleton. reflexivity.
Qed.

(** ** Concrete frames

    The statements above, and the places where the program departs from
    them, on the readers, the buffer and the frames defined earlier, with the
    decoders of golang.org/x/net. *)

Ltac run_closed :=
  repeat split; vm_compute;
  solve [reflexivity | congruence | intro; discriminate].



(** The amended C2 at a first byte [0x61]. *)
Lemma readFromIpv6_version_check_witness :
  readFromIpv6 ipv6.ParseHeader reader6 buffer64
               (syscall.RecvDatagram (frame6 x61 x0a x35 2)) =
  Return (Results 50 None None SliceNil (Some ErrNotIpv6)).
Proof.
  refine (proj1 (readFromIpv6_version_check ipv6.ParseHeader reader6 buffer64
                   (frame6 x61 x0a x35 2) x61 _) _).
  - vm_compute. reflexivity.
  - discriminate.
Defined.

(** C2 as stated fails: the first byte [0x61] has top nibble 6, and the frame,
    otherwise a correct one, is rejected with [ErrNotIpv6]. *)
Lemma readFromIpv6_rejects_top_nibble_6 :
  Z.shiftr (byte_val x61) 4 = 6 /\
  readFromIpv6 ipv6.ParseHeader reader6 buffer64
               (syscall.RecvDatagram (frame6 x61 x0a x35 2)) =
  Return (Results 50 None None SliceNil (Some ErrNotIpv6)) /\
  exists r,
    readFromIpv6 ipv6.ParseHeader reader6 buffer64
                 (syscall.RecvDatagram (frame6 x60 x0a x35 2)) = Return r /\
    res_err r = None.
Proof.
  split; [reflexivity|]. split; [vm_compute; reflexivity|].
  eexists. split; vm_compute; reflexivity.
Qed.

(** C3 as stated fails: the empty buffer that is not nil is answered with
    [ErrHeaderTooShort], not with [ErrNilHeader]. *)
Lemma ParseUDPHeader_empty_is_too_short :
  is_nil (Slice [] []) = false /\
  len (Slice [] []) = 0 /\
  ParseUDPHeader (Slice [] []) = Return (None, Some ErrHeaderTooShort) /\
  ParseUDPHeader (Slice [] []) <> Return (None, Some ErrNilHeader).
Proof. run_closed. Qed.

(** The amended C4 with descriptor 3 open. *)
Lemma Close_delegates_to_os_witness :
  Close (Some conn4) {[0; 1; 2; 3]} = Return (None, {[0; 1; 2; 3]} ∖ {[3]}) /\
  Close (Some conn4) ({[0; 1; 2; 3]} ∖ {[3]}) =
  Return (Some (Errno syscall.EBADF), {[0; 1; 2; 3]} ∖ {[3]}).
Proof.
  apply (proj2 (Close_delegates_to_os conn4 {[0; 1; 2; 3]})).
  vm_compute. reflexivity.
Defined.

(** C4 as stated fails: after a successful [Close] the next socket the process
    opens receives the released descriptor number, and a second [Close] of
    the same reader then succeeds, on a socket that is not its own; and
    [Close] on the nil reader that a failed construction leaves behind panics
    instead of returning [ErrInvalidConn]. *)
Lemma Close_twice_succeeds_after_reuse :
  let open0 : gset Z := {[0; 1; 2; 3]} in
  let open1 : gset Z := {[0; 1; 2]} in
  Close (Some conn4) open0 = Return (None, open1) /\
  syscall.Socket open1 = (3, open0) /\
  Close (Some conn4) open0 = Return (None, open1) /\
  Close None open0 = Panic NilDereference.
Proof. run_closed. Qed.

(** C5 at a buffer of three bytes and at one of ten. *)
Lemma ParseUDPHeader_spec_witness :
  ParseUDPHeader (Slice [x00; x35; x00] []) =
    Return (None, Some ErrHeaderTooShort) /\
  ParseUDPHeader (Slice (udp_bytes x36 ++ [xaa; xaa]) []) =
    Return (Some (mkUdpHeader 53 54 16 0), None).
Proof.
  destruct ParseUDPHeader_spec as (Hshort & Hdec & _).
  split.
  - apply Hshort. vm_compute. lia.
  - apply (Hdec (udp_bytes x36 ++ [xaa; xaa]) []). vm_compute. lia.
Defined.

(** C6 at a frame of one byte: the version check answers before the length
    check. *)
Lemma readFromIpv4_version_check_witness :
  readFromIpv4 ipv4.ParseHeader reader4 buffer64 (syscall.RecvDatagram [x60]) =
  Return (Results 1 None None SliceNil (Some ErrNotIpv4)).
Proof.
  refine (readFromIpv4_version_check ipv4.ParseHeader reader4 buffer64
            [x60] x60 _ _).
  - vm_compute. reflexivity.
  - discriminate.
Defined.

(** The amended C7 at two frames of 50 bytes: one declares a payload length
    of 11 and is refused, one declares 10 and is returned with its two bytes
    of payload. *)
Lemma readFromIpv6_length_check_witness :
  readFromIpv6 ipv6.ParseHeader reader6 buffer64
               (syscall.RecvDatagram (frame6 x60 x0b x35 2)) =
  Return (Results 50
            (Some {| Ipv4Header := None; Ipv6Header := Some (header6 11) |})
            None SliceNil (Some ErrPayloadLen)) /\
  (exists pb,
     reslice (syscall.fill buffer64 (frame6 x60 x0a x35 2)) 48 50 =
     Return pb /\
     len pb = 2 /\
     readFromIpv6 ipv6.ParseHeader reader6 buffer64
                  (syscall.RecvDatagram (frame6 x60 x0a x35 2)) =
     Return (Results 50
               (Some {| Ipv4Header := None; Ipv6Header := Some (header6 10) |})
               (Some (mkUdpHeader 53 53 16 0)) pb None)).
Proof.
  split.
  - refine (proj1 (readFromIpv6_length_check ipv6.ParseHeader reader6 buffer64
                     (frame6 x60 x0b x35 2) (header6 11)
                     (mkUdpHeader 53 53 16 0) _ _) _);
      run_closed.
  - refine (proj2 (readFromIpv6_length_check ipv6.ParseHeader reader6 buffer64
                     (frame6 x60 x0a x35 2) (header6 10)
                     (mkUdpHeader 53 53 16 0) _ _)
                  (syscall.mkSockaddrInet6 53 0 (replicate 16 x00)) _ _ eq_refl);
      run_closed.
Defined.

(** C7 as stated fails.  A frame of [40 + 4] bytes that declares a payload
    length of 4 reaches the length check with equal lengths, and so does a
    frame of [40 + 30] bytes read into the buffer of 64; in both cases
    [buffer[48 : bytesRead]] is out of range and the path panics, so that no
    payload slice is returned.  And a frame of 50 bytes with first byte
    [0x61] that declares a payload length of 11 is refused at the version
    check, with [ErrNotIpv6] and without the IP header, before the lengths
    are compared. *)
Lemma readFromIpv6_equal_lengths_no_payload :
  (let d := take 44 (frame6 x60 x04 x35 0) in
   reaches_ipv6_length_check ipv6.ParseHeader (syscall.fill buffer64 d)
     (header6 4) (mkUdpHeader 53 53 65535 65535) /\
   Z.of_nat (length d) = 40 + ipv6.PayloadLen (header6 4) /\
   sa reader6 =
     syscall.Inet6 (syscall.mkSockaddrInet6 53 0 (replicate 16 x00)) /\
   readFromIpv6 ipv6.ParseHeader reader6 buffer64 (syscall.RecvDatagram d) =
     Panic SliceBoundsOutOfRange) /\
  (let d := frame6 x60 x1e x35 22 in
   reaches_ipv6_length_check ipv6.ParseHeader (syscall.fill buffer64 d)
     (header6 30) (mkUdpHeader 53 53 16 0) /\
   Z.of_nat (length d) = 40 + ipv6.PayloadLen (header6 30) /\
   cap (syscall.fill buffer64 d) = 64 /\
   readFromIpv6 ipv6.ParseHeader reader6 buffer64 (syscall.RecvDatagram d) =
     Panic SliceBoundsOutOfRange) /\
  (let d := frame6 x61 x0b x35 2 in
   (exists h,
      ipv6.ParseHeader (syscall.fill buffer64 d) = Return (Some h, None) /\
      ipv6.Version h = 6 /\
      Z.of_nat (length d) <> 40 + ipv6.PayloadLen h) /\
   readFromIpv6 ipv6.ParseHeader reader6 buffer64 (syscall.RecvDatagram d) =
     Return (Results 50 None None SliceNil (Some ErrNotIpv6))).
Proof.
  split; [run_closed|]. split; [run_closed|]. cbv zeta. split.
  - eexists. repeat split; vm_compute; solve [reflexivity | discriminate].
  - vm_compute. reflexivity.
Qed.

(** The amended C8 at an IPv4 frame for port 54 and an IPv6 frame for port
    53, read by readers bound to port 53. *)
Lemma destination_port_filter_witness :
  (exists pb,
     readFromIpv4 ipv4.ParseHeader reader4 buffer64
                  (syscall.RecvDatagram (frame4 x45 x28 x36 12)) =
     Return (Results 40
               (Some {| Ipv4Header := Some (header4 40); Ipv6Header := None |})
               (Some (mkUdpHeader 53 54 16 0)) pb (Some ErrNotDestPort))) /\
  (exists pb,
     readFromIpv6 ipv6.ParseHeader reader6 buffer64
                  (syscall.RecvDatagram (frame6 x60 x0a x35 2)) =
     Return (Results 50
               (Some {| Ipv4Header := None; Ipv6Header := Some (header6 10) |})
               (Some (mkUdpHeader 53 53 16 0)) pb None)).
Proof.
  destruct (destination_port_filter ipv4.ParseHeader ipv6.ParseHeader)
    as [H4 H6].
  split.
  - destruct (H4 reader4 buffer64 (frame4 x45 x28 x36 12) (header4 40)
                 (mkUdpHeader 53 54 16 0)
                 (syscall.mkSockaddrInet4 53 [x0a; x00; x00; x01]))
      as (pb & _ & _ & E); [run_closed | reflexivity |].
    exists pb. exact E.
  - destruct (H6 reader6 buffer64 (frame6 x60 x0a x35 2) (header6 10)
                 (mkUdpHeader 53 53 16 0)
                 (syscall.mkSockaddrInet6 53 0 (replicate 16 x00)))
      as (pb & _ & _ & E); [run_closed | reflexivity |].
    exists pb. exact E.
Defined.

(** C8 as stated fails.  The IPv6 frame below is correctly formed: version
    6, traffic class [0x10], a declared payload length of 10 in a frame of
    [40 + 10] bytes, a UDP header for port 54 and two bytes of payload, all
    within the buffer.  The reader is bound to port 53, yet the read does not
    fail with [ErrNotDestPort] and returns none of the three structures: the
    first byte is [0x61], and the path answers [ErrNotIpv6]. *)
Lemma destination_port_filter_not_reached :
  let d := frame6 x61 x0a x36 2 in
  Z.shiftr (byte_val x61) 4 = 6 /\
  (exists h,
     ipv6.ParseHeader (syscall.fill buffer64 d) = Return (Some h, None) /\
     ipv6.Version h = 6 /\
     ipv6.TrafficClass h = 16 /\
     Z.of_nat (length d) = 40 + ipv6.PayloadLen h) /\
  Z.of_nat (length d) <= len buffer64 /\
  reslice_from (syscall.fill buffer64 d) 40 ≫= ParseUDPHeader =
    Return (Some (mkUdpHeader 53 54 16 0), None) /\
  sa reader6 =
    syscall.Inet6 (syscall.mkSockaddrInet6 53 0 (replicate 16 x00)) /\
  readFromIpv6 ipv6.ParseHeader reader6 buffer64 (syscall.RecvDatagram d) =
    Return (Results 50 None None SliceNil (Some ErrNotIpv6)).
Proof.
  cbv zeta. split; [reflexivity|].
  split; [eexists; repeat split; vm_compute; reflexivity|].
  repeat split; vm_compute; solve [reflexivity | congruence].
Qed.

(** C9 at a receive call interrupted by a signal (errno 4). *)
Lemma receive_error_propagates_witness :
  readFromIpv4 ipv4.ParseHeader reader4 buffer64 (syscall.RecvFails 4) =
    Return (Results (-1) None None SliceNil (Some (Errno 4))) /\
  readFromIpv6 ipv6.ParseHeader reader4 buffer64 (syscall.RecvFails 4) =
    Return (Results (-1) None None SliceNil (Some (Errno 4))) /\
  readfrom ipv4.ParseHeader ipv6.ParseHeader (Some reader4) buffer64
           (syscall.RecvFails 4) =
    Return (Results (-1) None None SliceNil (Some (Errno 4))).
Proof.
  apply (receive_error_propagates ipv4.ParseHeader ipv6.ParseHeader reader4
           buffer64 (syscall.RecvFails 4) (-1) buffer64 (Errno 4)).
  reflexivity.
Defined.

(** C10. The read paths do not stay within bounds and do not fail closed.
    With an empty caller buffer both paths panic at the first-byte check.  An
    IPv4 frame that declares a total length below 28 (here 0) panics at the
    payload slice, and so does an IPv6 frame of [40 + 4] bytes that declares a
    payload length of 4, and one of 70 bytes read into a buffer of 64.  An
    IPv6 frame of a single byte has its header decoded from the bytes an
    earlier read left in the buffer (declared payload length [0xffff]). *)
Theorem read_paths_panic_out_of_range :
  readFromIpv4 ipv4.ParseHeader reader4 (Slice [] [])
               (syscall.RecvDatagram (frame4 x45 x1e x35 2)) =
    Panic IndexOutOfRange /\
  readFromIpv6 ipv6.ParseHeader reader6 (Slice [] [])
               (syscall.RecvDatagram (frame6 x60 x0a x35 2)) =
    Panic IndexOutOfRange /\
  readFromIpv4 ipv4.ParseHeader reader4 buffer64
               (syscall.RecvDatagram (frame4 x45 x00 x35 0)) =
    Panic SliceBoundsOutOfRange /\
  readFromIpv6 ipv6.ParseHeader reader6 buffer64
               (syscall.RecvDatagram (take 44 (frame6 x60 x04 x35 0))) =
    Panic SliceBoundsOutOfRange /\
  readFromIpv6 ipv6.ParseHeader reader6 buffer64
               (syscall.RecvDatagram (frame6 x60 x1e x35 22)) =
    Panic SliceBoundsOutOfRange /\
  (exists h,
     readFromIpv6 ipv6.ParseHeader reader6 buffer64
                  (syscall.RecvDatagram [x60]) =
     Return (Results 1 (Some {| Ipv4Header := None; Ipv6Header := Some h |})
                     None SliceNil (Some ErrPayloadLen)) /\
     ipv6.PayloadLen h = 65535).
Proof.
  repeat split; try (vm_compute; reflexivity).
  eexists. split; vm_compute; reflexivity.
Qed.

(** * Further properties *)

(** ** The UDP header codec and the wire format *)

Lemma be16_at_range l off : is_uint16 (be16_at l off).
Proof.
  unfold is_uint16, be16_at.
  pose proof (byte_val_range (default x00 (l !! off))).
  pose proof (byte_val_range (default x00 (l !! S off))).
  lia.
Qed.

Lemma byte_val_of_Z z : byte_val (byte_of_Z z) = z mod 256.
Proof.
  unfold byte_of_Z, byte_val.
  assert (Hr : 0 <= z mod 256 < 256) by (apply Z.mod_pos_bound; lia).
  destruct (Byte.of_N (Z.to_N (z mod 256))) as [y|] eqn:E.
  - apply Byte.to_of_N in E. cbn [default from_option id]. rewrite E. lia.
  - apply Byte.of_N_None_iff in E. lia.
Qed.

Lemma byte_of_Z_val x : byte_of_Z (byte_val x) = x.
Proof.
  unfold byte_of_Z, byte_val.
  pose proof (Byte.to_N_bounded x).
  rewrite Z.mod_small by lia.
  rewrite N2Z.id, Byte.of_to_N. reflexivity.
Qed.

Lemma be16_at_bytes z t :
  is_uint16 z -> be16_at (be16_bytes z ++ t) 0 = z.
Proof.
  unfold is_uint16, be16_at, be16_bytes. intros Hz.
  cbn [app lookup list_lookup default from_option id].
  rewrite !byte_val_of_Z.
  rewrite (Z.mod_small (z / 256))
    by (split; [apply Z.div_pos; lia | apply Z.div_lt_upper_bound; lia]).
  pose proof (Z.div_mod z 256). lia.
Qed.

Lemma be16_bytes_at x y :
  be16_bytes (256 * byte_val x + byte_val y) = [x; y].
Proof.
  unfold be16_bytes.
  pose proof (byte_val_range x). pose proof (byte_val_range y).
  replace ((256 * byte_val x + byte_val y) / 256) with (byte_val x)
    by (apply Z.div_unique with (r := byte_val y); lia).
  rewrite byte_of_Z_val.
  replace (byte_of_Z (256 * byte_val x + byte_val y)) with y; [reflexivity|].
  rewrite <- (byte_of_Z_val y) at 1. unfold byte_of_Z.
  rewrite Z.add_comm, Z.mul_comm, Z.mod_add by lia. reflexivity.
Qed.

(** X1. The codec never panics: for every buffer, nil, empty or of any
    length, it returns either a header and no error or an error and no header,
    and every field of a returned header is a 16-bit value. *)
Theorem ParseUDPHeader_never_panics b :
  exists uh err,
    ParseUDPHeader b = Return (uh, err) /\
    (uh = None <-> err <> None) /\
    (forall h, uh = Some h ->
       is_uint16 (SourcePort h) /\ is_uint16 (DestinationPort h) /\
       is_uint16 (Length h) /\ is_uint16 (Checksum h)).
Proof.
  destruct b as [|l sp].
  - exists None, (Some ErrNilHeader). repeat split; try discriminate; auto.
  - destruct (Nat.lt_ge_cases (length l) 8) as [Hs | Hl].
    + rewrite ParseUDPHeader_short by exact Hs.
      exists None, (Some ErrHeaderTooShort).
      repeat split; try discriminate; auto.
    + rewrite ParseUDPHeader_decodes by exact Hl.
      eexists _, None. split; [reflexivity|]. split.
      * split; [discriminate | congruence].
      * intros h [= <-].
        cbn [udp_header_at SourcePort DestinationPort Length Checksum].
        repeat split; apply be16_at_range.
Qed.

(** X2. Only the first eight bytes of the buffer count: the bytes behind them
    and the spare capacity of the slice do not change the result. *)
Theorem ParseUDPHeader_reads_first_8_bytes l sp :
  (8 <= length l)%nat ->
  ParseUDPHeader (Slice l sp) = ParseUDPHeader (Slice (take 8 l) []).
Proof.
  intros H.
  rewrite !ParseUDPHeader_decodes by (rewrite ?length_take; lia).
  do 8 (destruct l as [|? l]; [simpl in H; lia|]).
  reflexivity.
Qed.

Lemma ParseUDPHeader_reads_first_8_bytes_witness :
  ParseUDPHeader (Slice (udp_bytes x35 ++ [xaa; xbb]) [xcc]) =
  ParseUDPHeader (Slice (take 8 (udp_bytes x35 ++ [xaa; xbb])) []).
Proof.
  apply ParseUDPHeader_reads_first_8_bytes. vm_compute. lia.
Defined.

(** X3. The codec inverts the wire format of RFC 768: the eight big-endian
    bytes of a header with 16-bit fields, followed by anything, decode to that
    header, and the first eight bytes of a buffer that decodes to a header are
    the bytes of that header. *)
Theorem ParseUDPHeader_inverts_wire_format :
  (forall h rest sp,
     is_uint16 (SourcePort h) -> is_uint16 (DestinationPort h) ->
     is_uint16 (Length h) -> is_uint16 (Checksum h) ->
     ParseUDPHeader (Slice (udp_header_bytes h ++ rest) sp) =
     Return (Some h, None)) /\
  (forall l sp h,
     ParseUDPHeader (Slice l sp) = Return (Some h, None) ->
     take 8 l = udp_header_bytes h).
Proof.
  split.
  - intros [s d ln c] rest sp Hs Hd Hl Hc.
    cbn [SourcePort DestinationPort Length Checksum] in *.
    rewrite ParseUDPHeader_decodes
      by (unfold udp_header_bytes, be16_bytes; simpl; lia).
    match goal with
    | |- Return (Some ?x, None) = _ =>
        cut (x = {| SourcePort := s; DestinationPort := d; Length := ln;
                    Checksum := c |}); [intros ->; reflexivity|]
    end.
    unfold udp_header_bytes, udp_header_at.
    cbn [SourcePort DestinationPort Length Checksum].
    rewrite <- !app_assoc.
    f_equal.
    + apply be16_at_bytes; assumption.
    + apply (be16_at_bytes d); assumption.
    + apply (be16_at_bytes ln); assumption.
    + apply (be16_at_bytes c); assumption.
  - intros l sp h.
    destruct (Nat.lt_ge_cases (length l) 8) as [Hs | Hl].
    + rewrite ParseUDPHeader_short by exact Hs. discriminate.
    + rewrite ParseUDPHeader_decodes by exact Hl. intros [= <-].
      do 8 (destruct l as [|? l]; [simpl in Hl; lia|]).
      unfold udp_header_bytes, udp_header_at, be16_at.
      cbn [SourcePort DestinationPort Length Checksum lookup list_lookup
           default from_option id Nat.add].
      rewrite !be16_bytes_at. reflexivity.
Qed.

Lemma ParseUDPHeader_inverts_wire_format_witness :
  ParseUDPHeader
    (Slice (udp_header_bytes (mkUdpHeader 5353 443 520 65535) ++ [xaa]) []) =
    Return (Some (mkUdpHeader 5353 443 520 65535), None) /\
  take 8 (udp_bytes x36 ++ [xaa; xaa]) =
    udp_header_bytes (mkUdpHeader 53 54 16 0).
Proof.
  destruct ParseUDPHeader_inverts_wire_format as [Henc Hdec].
  split.
  - apply Henc; run_closed.
  - apply (Hdec _ []). vm_compute. reflexivity.
Defined.

(** ** htons *)

Lemma htons_value host :
  is_uint16 host -> htons host = 256 * (host mod 256) + host / 256.
Proof.
  unfold is_uint16, htons, uint16_wrap. intros H.
  change 0xff with (Z.ones 8). rewrite Z.land_ones by lia.
  rewrite Z.shiftr_div_pow2 by lia.
  assert (0 <= host mod 2 ^ 8 < 256) by (apply Z.mod_pos_bound; lia).
  assert (0 <= host / 2 ^ 8 < 256)
    by (split; [apply Z.div_pos; lia | apply Z.div_lt_upper_bound; lia]).
  rewrite <- (Z.land_ones _ 16) by lia.
  rewrite Z.lor_comm.
  change (Z.ones 16) with 0xffff.
  rewrite lor_shiftl8 by assumption.
  reflexivity.
Qed.

(** X4. On every 16-bit value [htons] exchanges the two bytes: the result is
    the low byte times 256 plus the high byte, again a 16-bit value, and
    applying [htons] twice gives the value back. *)
Theorem htons_swaps_bytes host :
  is_uint16 host ->
  htons host = 256 * (host mod 256) + host / 256 /\
  is_uint16 (htons host) /\
  htons (htons host) = host.
Proof.
  intros H. pose proof H as H'. unfold is_uint16 in H'.
  assert (Hl : 0 <= host mod 256 < 256) by (apply Z.mod_pos_bound; lia).
  assert (Hh : 0 <= host / 256 < 256)
    by (split; [apply Z.div_pos; lia | apply Z.div_lt_upper_bound; lia]).
  rewrite htons_value by exact H.
  assert (Hr : is_uint16 (256 * (host mod 256) + host / 256))
    by (unfold is_uint16; lia).
  split; [reflexivity|]. split; [exact Hr|].
  rewrite htons_value by exact Hr.
  replace ((256 * (host mod 256) + host / 256) mod 256) with (host / 256)
    by (apply Z.mod_unique with (q := host mod 256); lia).
  replace ((256 * (host mod 256) + host / 256) / 256) with (host mod 256)
    by (apply Z.div_unique with (r := host / 256); lia).
  pose proof (Z.div_mod host 256). lia.
Qed.

Lemma htons_swaps_bytes_witness :
  htons syscall.ETH_P_IPV6 = 0xdd86 /\
  is_uint16 (htons syscall.ETH_P_IPV6) /\
  htons (htons syscall.ETH_P_IPV6) = syscall.ETH_P_IPV6.
Proof.
  apply (htons_swaps_bytes syscall.ETH_P_IPV6). run_closed.
Defined.

(** ** The stages of the read paths *)

Lemma index_not_nil b i x : index b i = Return x -> b <> SliceNil.
Proof.
  intros H ->. unfold index in H. cbn [elems_of] in H.
  rewrite lookup_nil in H.
  destruct (_ && _); discriminate.
Qed.

Lemma index_0_nonempty b : 0 < len b -> exists x, index b 0 = Return x.
Proof.
  intros H. destruct b as [|[|x l] sp]; try (unfold len in H; simpl in H; lia).
  exists x. reflexivity.
Qed.

Lemma reslice_not_nil b lo hi b' :
  reslice b lo hi = Return b' -> b <> SliceNil -> b' <> SliceNil.
Proof.
  unfold reslice. destruct (_ && _); [|discriminate].
  destruct b; [congruence|]. intros [= <-] _. discriminate.
Qed.

Lemma reslice_bounds b lo hi b' :
  reslice b lo hi = Return b' -> 0 <= lo <= hi /\ hi <= cap b.
Proof.
  unfold reslice.
  destruct ((0 <=? lo) && (lo <=? hi) && (hi <=? cap b)) eqn:Hc;
    [|discriminate].
  apply andb_prop in Hc as [Hc H3]. apply andb_prop in Hc as [H1 H2].
  apply Z.leb_le in H1, H2, H3. lia.
Qed.

Lemma cap_fill b d : cap (syscall.fill b d) = cap b.
Proof.
  destruct b as [|l sp]; [reflexivity|].
  unfold cap. cbn [syscall.fill cells_of].
  rewrite !length_app, length_take, length_drop. lia.
Qed.

Lemma ParseUDPHeader_at_short b (off : nat) :
  Z.of_nat off <= len b < Z.of_nat off + 8 -> b <> SliceNil ->
  reslice_from b (Z.of_nat off) ≫= ParseUDPHeader =
  Return (None, Some ErrHeaderTooShort).
Proof.
  intros H Hb. destruct b as [|l sp]; [congruence|].
  rewrite len_Slice in H.
  rewrite reslice_from_Slice by lia. cbn [mbind exec_bind].
  apply ParseUDPHeader_short. rewrite length_drop. lia.
Qed.

Lemma payloadlen_ipv4_nonneg_min b h :
  0 <= ipv4.TotalLen h -> len b <= maxInt ->
  payloadlen_ipv4 b (Some h) 28 = Return (Z.min (ipv4.TotalLen h) (len b) - 28).
Proof.
  intros Ht Hb. unfold payloadlen_ipv4. cbn [deref mbind exec_bind].
  assert (0 <= len b) by (unfold len; lia).
  unfold maxInt in Hb.
  destruct (ipv4.TotalLen h <? len b) eqn:Hlt.
  - apply Z.ltb_lt in Hlt. unfold int_sub.
    rewrite int_wrap_id by (unfold maxInt; lia).
    rewrite Z.min_l by lia. reflexivity.
  - apply Z.ltb_ge in Hlt. unfold int_sub.
    rewrite int_wrap_id by (unfold maxInt; lia).
    rewrite Z.min_r by lia. reflexivity.
Qed.

Lemma fill_fits l sp d :
  (length d <= length l)%nat ->
  syscall.fill (Slice l sp) d = Slice (d ++ drop (length d) l) sp.
Proof.
  intros H. cbn [syscall.fill]. rewrite take_ge by exact H. reflexivity.
Qed.

(** The part of a received datagram behind its first [k] bytes, as a slice of
    the buffer it was read into. *)
Lemma reslice_received l sp d (k : nat) :
  (k <= length d)%nat -> (length d <= length l)%nat ->
  reslice (syscall.fill (Slice l sp) d) (Z.of_nat k) (Z.of_nat (length d)) =
  Return (Slice (drop k d) (drop (length d) l ++ sp)).
Proof.
  intros Hk Hd. rewrite fill_fits by exact Hd.
  rewrite reslice_Slice
    by (rewrite ?length_app, ?length_drop; lia).
  rewrite !Nat2Z.id.
  replace (Z.to_nat (Z.of_nat (length d) - Z.of_nat k))
    with (length (drop k d)) by (rewrite length_drop; lia).
  rewrite <- !app_assoc.
  rewrite drop_app_le by exact Hk.
  rewrite take_app_length.
  rewrite drop_app_length. reflexivity.
Qed.

Lemma be16_at_app d r (k : nat) :
  (k + 2 <= length d)%nat -> be16_at (d ++ r) k = be16_at d k.
Proof.
  intros H. unfold be16_at.
  rewrite !lookup_app_l by lia. reflexivity.
Qed.

Lemma udp_header_at_app d r (k : nat) :
  (k + 8 <= length d)%nat -> udp_header_at (d ++ r) k = udp_header_at d k.
Proof.
  intros H. unfold udp_header_at.
  rewrite !be16_at_app by lia. reflexivity.
Qed.

Section ReadPathStages.

Variable dec4 : slice -> exec (option ipv4.Header * option string).
Variable dec6 : slice -> exec (option ipv6.Header * option string).

Lemma readFromIpv4_classified hdl b reply res :
  readFromIpv4 dec4 hdl b reply = Return res -> ipv4_outcome hdl reply res.
Proof.
  destruct reply as [e|d].
  { intros [= <-]. constructor. }
  unfold readFromIpv4. rewrite Recvfrom_datagram.
  destruct (index (syscall.fill b d) 0) as [x|] eqn:H0;
    cbn [mbind exec_bind]; [|discriminate].
  pose proof (index_not_nil _ _ _ H0) as Hnn.
  destruct (negb (Byte.eqb x x45)).
  { intros [= <-]. constructor. }
  destruct (Z.of_nat (length d) <? 20 + UDPHeaderLen) eqn:Hn.
  { intros [= <-]. apply Z.ltb_lt in Hn. constructor. exact Hn. }
  apply Z.ltb_ge in Hn. change (20 + UDPHeaderLen) with 28 in *.
  destruct (dec4 _) as [[ipv4h [e|]]|]; cbn [mbind exec_bind];
    try discriminate.
  { intros [= <-]. constructor. exact Hn. }
  destruct (reslice_from _ _) as [b20|] eqn:Hb20; cbn [mbind exec_bind];
    try discriminate.
  pose proof (reslice_not_nil _ _ _ _ Hb20 Hnn) as Hnn20.
  destruct (ParseUDPHeader b20) as [[uh [e|]]|] eqn:Hp;
    cbn [mbind exec_bind]; try discriminate.
  { intros [= <-].
    destruct (ParseUDPHeader_error _ _ _ Hp) as (_ & [[_ ->] | [-> _]]);
      [congruence|].
    constructor. exact Hn. }
  destruct (payloadlen_ipv4 _ _ _) as [pl|]; cbn [mbind exec_bind];
    try discriminate.
  destruct (reslice _ _ _) as [pb|] eqn:Hpb; cbn [mbind exec_bind];
    try discriminate.
  pose proof (reslice_not_nil _ _ _ _ Hpb Hnn) as Hnnp.
  destruct (sa hdl) as [|a4|a6|] eqn:Hsa; cbn [assert_Inet4 mbind exec_bind];
    try discriminate.
  destruct uh as [u|]; cbn [deref mbind exec_bind]; try discriminate.
  destruct (syscall.Port4 a4 =? DestinationPort u) eqn:Hport; cbn [negb];
    intros [= <-].
  - apply Z.eqb_eq in Hport. eapply ipv4_delivered; eauto.
  - apply Z.eqb_neq in Hport. eapply ipv4_filtered; eauto.
Qed.

Lemma readFromIpv6_classified hdl b reply res :
  readFromIpv6 dec6 hdl b reply = Return res -> ipv6_outcome hdl reply res.
Proof.
  destruct reply as [e|d].
  { intros [= <-]. constructor. }
  unfold readFromIpv6. rewrite Recvfrom_datagram.
  destruct (index (syscall.fill b d) 0) as [x|] eqn:H0;
    cbn [mbind exec_bind]; [|discriminate].
  pose proof (index_not_nil _ _ _ H0) as Hnn.
  destruct (negb (Byte.eqb x x60)).
  { intros [= <-]. constructor. }
  destruct (dec6 _) as [[ipv6h [e|]]|]; cbn [mbind exec_bind];
    try discriminate.
  { intros [= <-]. constructor. }
  destruct (reslice_from _ _) as [b40|] eqn:Hb40; cbn [mbind exec_bind];
    try discriminate.
  pose proof (reslice_not_nil _ _ _ _ Hb40 Hnn) as Hnn40.
  destruct (ParseUDPHeader b40) as [[uh [e|]]|] eqn:Hp;
    cbn [mbind exec_bind]; try discriminate.
  { intros [= <-].
    destruct (ParseUDPHeader_error _ _ _ Hp) as (_ & [[_ ->] | [-> _]]);
      [congruence|].
    constructor. }
  destruct ipv6h as [h|]; cbn [deref mbind exec_bind]; try discriminate.
  destruct (negb _).
  { intros [= <-]. constructor. }
  destruct (reslice _ _ _) as [pb|] eqn:Hpb; cbn [mbind exec_bind];
    try discriminate.
  pose proof (reslice_not_nil _ _ _ _ Hpb Hnn) as Hnnp.
  apply reslice_bounds in Hpb as [Hlo _].
  change (int_add ipv6.HeaderLen UDPHeaderLen) with 48 in Hlo.
  destruct (sa hdl) as [|a4|a6|] eqn:Hsa; cbn [assert_Inet6 mbind exec_bind];
    try discriminate.
  destruct uh as [u|]; cbn [deref mbind exec_bind]; try discriminate.
  destruct (syscall.Port6 a6 =? DestinationPort u) eqn:Hport; cbn [negb];
    intros [= <-].
  - apply Z.eqb_eq in Hport. eapply ipv6_delivered; eauto. lia.
  - apply Z.eqb_neq in Hport. eapply ipv6_filtered; eauto. lia.
Qed.

(** X5. Whatever the IPv4 path returns is one of seven outcomes.  The count
    is -1 exactly when the receive call failed; a UDP header comes only with
    an IP header and a payload that is not nil, and then the count is at
    least 28 and the error is none or [ErrNotDestPort], according to the
    ports; the path never returns [ErrNilHeader], [ErrInvalidConn],
    [ErrMissingAddress], [ErrNotIpv6] or [ErrPayloadLen]. *)
Theorem readFromIpv4_outcomes hdl b reply res :
  readFromIpv4 dec4 hdl b reply = Return res -> ipv4_outcome hdl reply res.
Proof. exact (readFromIpv4_classified hdl b reply res). Qed.

(** X6. Whatever the IPv6 path returns is one of seven outcomes.  A UDP
    header comes only with an IP header and a payload that is not nil, and
    then the count is at least 48 and the error is none or [ErrNotDestPort],
    according to the ports; the path never returns [ErrNilHeader],
    [ErrInvalidConn], [ErrMissingAddress] or [ErrNotIpv4]. *)
Theorem readFromIpv6_outcomes hdl b reply res :
  readFromIpv6 dec6 hdl b reply = Return res -> ipv6_outcome hdl reply res.
Proof. exact (readFromIpv6_classified hdl b reply res). Qed.

(** X7. An IPv4 frame of fewer than 28 bytes whose first byte is [0x45]
    fails with [ErrHeaderTooShort], reporting the count and no structures;
    the IP-header decoder is not consulted. *)
Theorem readFromIpv4_short_frame hdl b d :
  index (syscall.fill b d) 0 = Return x45 ->
  Z.of_nat (length d) < 28 ->
  readFromIpv4 dec4 hdl b (syscall.RecvDatagram d) =
  Return (Results (Z.of_nat (length d)) None None SliceNil
                  (Some ErrHeaderTooShort)).
Proof.
  intros H0 Hn. unfold readFromIpv4. rewrite Recvfrom_datagram, H0.
  cbn [mbind exec_bind]. change (Byte.eqb x45 x45) with true. cbn [negb].
  replace (Z.of_nat (length d) <? 20 + UDPHeaderLen) with true
    by (symmetry; apply Z.ltb_lt; exact Hn).
  reflexivity.
Qed.

(** X8. An error of the IP-header decoder is returned as it is, with the
    count, and without any structure, also when the decoder returned a header
    next to its error; in the IPv4 path after the version and length checks,
    in the IPv6 path after the version check. *)
Theorem ip_decoder_error_propagates :
  (forall hdl b d oh msg,
     index (syscall.fill b d) 0 = Return x45 ->
     28 <= Z.of_nat (length d) ->
     dec4 (syscall.fill b d) = Return (oh, Some msg) ->
     readFromIpv4 dec4 hdl b (syscall.RecvDatagram d) =
     Return (Results (Z.of_nat (length d)) None None SliceNil
                     (Some (ErrForeign msg)))) /\
  (forall hdl b d oh msg,
     index (syscall.fill b d) 0 = Return x60 ->
     dec6 (syscall.fill b d) = Return (oh, Some msg) ->
     readFromIpv6 dec6 hdl b (syscall.RecvDatagram d) =
     Return (Results (Z.of_nat (length d)) None None SliceNil
                     (Some (ErrForeign msg)))).
Proof.
  split.
  - intros hdl b d oh msg H0 Hn Hdec.
    unfold readFromIpv4. rewrite Recvfrom_datagram, H0.
    cbn [mbind exec_bind]. change (Byte.eqb x45 x45) with true. cbn [negb].
    replace (Z.of_nat (length d) <? 20 + UDPHeaderLen) with false
      by (symmetry; apply Z.ltb_ge; exact Hn).
    rewrite Hdec. reflexivity.
  - intros hdl b d oh msg H0 Hdec.
    unfold readFromIpv6. rewrite Recvfrom_datagram, H0.
    cbn [mbind exec_bind]. change (Byte.eqb x60 x60) with true. cbn [negb].
    rewrite Hdec. reflexivity.
Qed.

(** X9. When the buffer holds the IP header but fewer than 8 bytes behind it
    (20 to 27 bytes in the IPv4 path, 40 to 47 in the IPv6 path), the path
    fails with [ErrHeaderTooShort] and still returns the decoded IP header,
    without a UDP header and without a payload. *)
Theorem udp_header_too_short_keeps_ip_header :
  (forall hdl b d oh,
     index (syscall.fill b d) 0 = Return x45 ->
     28 <= Z.of_nat (length d) ->
     dec4 (syscall.fill b d) = Return (oh, None) ->
     20 <= len b < 28 ->
     readFromIpv4 dec4 hdl b (syscall.RecvDatagram d) =
     Return (Results (Z.of_nat (length d))
                     (Some {| Ipv4Header := oh; Ipv6Header := None |})
                     None SliceNil (Some ErrHeaderTooShort))) /\
  (forall hdl b d oh,
     index (syscall.fill b d) 0 = Return x60 ->
     dec6 (syscall.fill b d) = Return (oh, None) ->
     40 <= len b < 48 ->
     readFromIpv6 dec6 hdl b (syscall.RecvDatagram d) =
     Return (Results (Z.of_nat (length d))
                     (Some {| Ipv4Header := None; Ipv6Header := oh |})
                     None SliceNil (Some ErrHeaderTooShort))).
Proof.
  split.
  - intros hdl b d oh H0 Hn Hdec Hlen.
    pose proof (index_not_nil _ _ _ H0) as Hnn.
    pose proof (ParseUDPHeader_at_short (syscall.fill b d) 20) as E.
    rewrite len_fill in E. specialize (E ltac:(lia) Hnn).
    change (Z.of_nat 20) with 20 in E.
    unfold readFromIpv4. rewrite Recvfrom_datagram, H0.
    cbn [mbind exec_bind]. change (Byte.eqb x45 x45) with true. cbn [negb].
    replace (Z.of_nat (length d) <? 20 + UDPHeaderLen) with false
      by (symmetry; apply Z.ltb_ge; exact Hn).
    rewrite Hdec. cbn [mbind exec_bind].
    destruct (reslice_from (syscall.fill b d) 20) as [b20|];
      cbn [mbind exec_bind] in E |- *; [|discriminate].
    rewrite E. reflexivity.
  - intros hdl b d oh H0 Hdec Hlen.
    pose proof (index_not_nil _ _ _ H0) as Hnn.
    pose proof (ParseUDPHeader_at_short (syscall.fill b d) 40) as E.
    rewrite len_fill in E. specialize (E ltac:(lia) Hnn).
    change (Z.of_nat 40) with ipv6.HeaderLen in E.
    unfold readFromIpv6. rewrite Recvfrom_datagram, H0.
    cbn [mbind exec_bind]. change (Byte.eqb x60 x60) with true. cbn [negb].
    rewrite Hdec. cbn [mbind exec_bind].
    destruct (reslice_from (syscall.fill b d) ipv6.HeaderLen) as [b40|];
      cbn [mbind exec_bind] in E |- *; [|discriminate].
    rewrite E. reflexivity.
Qed.

(** X10. When the declared total length of an IPv4 frame equals the count of
    the receive call and the frame fits the buffer, the UDP header returned is
    the one at bytes 20 to 27 of the received frame, and the payload returned
    holds exactly the bytes of the frame from byte 28 on. *)
Theorem readFromIpv4_returns_datagram_payload hdl b d h uh a :
  passes_ipv4_checks dec4 (syscall.fill b d) (Z.of_nat (length d)) h uh ->
  ipv4.TotalLen h = Z.of_nat (length d) ->
  Z.of_nat (length d) <= len b ->
  len b <= maxInt ->
  sa hdl = syscall.Inet4 a ->
  exists spare,
    readFromIpv4 dec4 hdl b (syscall.RecvDatagram d) =
    Return (Results (Z.of_nat (length d))
                    (Some {| Ipv4Header := Some h; Ipv6Header := None |})
                    (Some (udp_header_at d 20))
                    (Slice (drop 28 d) spare)
                    (if syscall.Port4 a =? DestinationPort (udp_header_at d 20)
                     then None else Some ErrNotDestPort)).
Proof.
  intros Hchk Ht Hfit Hb Hsa.
  pose proof Hchk as (_ & Hn & _ & Hudp).
  change (20 + UDPHeaderLen) with 28 in Hn.
  pose proof (passes_ipv4_checks_len _ _ _ _ _ Hchk) as Hlen.
  rewrite len_fill in Hlen.
  destruct b as [|l sp]; [unfold len in Hlen; simpl in Hlen; lia|].
  rewrite len_Slice in *.
  assert (Huh : uh = udp_header_at d 20).
  { pose proof (ParseUDPHeader_at (syscall.fill (Slice l sp) d) 20) as E.
    rewrite len_fill, len_Slice in E. specialize (E ltac:(lia)).
    change (Z.of_nat 20) with 20 in E. rewrite E in Hudp.
    injection Hudp as <-.
    rewrite take_ge by lia.
    apply udp_header_at_app. lia. }
  subst uh.
  rewrite (readFromIpv4_past_checks dec4 hdl _ d h _ Hchk).
  rewrite payloadlen_ipv4_nonneg_min
    by (rewrite ?len_fill, ?len_Slice; lia).
  cbn [mbind exec_bind]. rewrite len_fill, len_Slice.
  unfold int_add. rewrite int_wrap_id by (unfold maxInt in *; lia).
  replace (28 + (Z.min (ipv4.TotalLen h) (Z.of_nat (length l)) - 28))
    with (Z.of_nat (length d)) by lia.
  pose proof (reslice_received l sp d 28) as E.
  change (Z.of_nat 28) with 28 in E. rewrite E by lia.
  cbn [mbind exec_bind]. rewrite Hsa. cbn [assert_Inet4 mbind exec_bind].
  eexists. reflexivity.
Qed.

(** X11. When the count of the receive call equals 40 plus the declared
    payload length of an IPv6 frame, that length covers a UDP header, and the
    frame fits the buffer, the UDP header returned is the one at bytes 40 to
    47 of the received frame, and the payload returned holds exactly the bytes
    of the frame from byte 48 on. *)
Theorem readFromIpv6_returns_datagram_payload hdl b d h uh a :
  reaches_ipv6_length_check dec6 (syscall.fill b d) h uh ->
  Z.of_nat (length d) = 40 + ipv6.PayloadLen h ->
  8 <= ipv6.PayloadLen h <= 65535 ->
  Z.of_nat (length d) <= len b ->
  sa hdl = syscall.Inet6 a ->
  exists spare,
    readFromIpv6 dec6 hdl b (syscall.RecvDatagram d) =
    Return (Results (Z.of_nat (length d))
                    (Some {| Ipv4Header := None; Ipv6Header := Some h |})
                    (Some (udp_header_at d 40))
                    (Slice (drop 48 d) spare)
                    (if syscall.Port6 a =? DestinationPort (udp_header_at d 40)
                     then None else Some ErrNotDestPort)).
Proof.
  intros Hchk Hn Hp Hfit Hsa.
  pose proof Hchk as (_ & _ & Hudp).
  destruct b as [|l sp]; [unfold len in Hfit; simpl in Hfit; lia|].
  rewrite len_Slice in *.
  assert (Huh : uh = udp_header_at d 40).
  { pose proof (ParseUDPHeader_at (syscall.fill (Slice l sp) d) 40) as E.
    rewrite len_fill, len_Slice in E. specialize (E ltac:(lia)).
    change (Z.of_nat 40) with ipv6.HeaderLen in E. rewrite E in Hudp.
    injection Hudp as <-.
    rewrite take_ge by lia.
    apply udp_header_at_app. lia. }
  subst uh.
  rewrite (readFromIpv6_past_checks dec6 hdl _ d h _ Hchk).
  unfold int_add. rewrite int_wrap_id by (unfold maxInt; lia).
  apply Z.eqb_eq in Hn. rewrite Hn.
  pose proof (reslice_received l sp d 48) as E.
  change (Z.of_nat 48) with 48 in E. rewrite E by lia.
  cbn [mbind exec_bind]. rewrite Hsa. cbn [assert_Inet6 mbind exec_bind].
  eexists. reflexivity.
Qed.

(** X12. A reader whose address is not of the family of its path panics at
    the type assertion on every correctly formed frame: the port is looked up
    only after all checks have passed and the payload has been sliced. *)
Theorem wrong_address_type_panics :
  (forall hdl b d h uh,
     well_formed_ipv4 dec4 (syscall.fill b d) (Z.of_nat (length d)) h uh ->
     (forall a, sa hdl <> syscall.Inet4 a) ->
     readFromIpv4 dec4 hdl b (syscall.RecvDatagram d) =
     Panic TypeAssertionFailed) /\
  (forall hdl b d h uh,
     well_formed_ipv6 dec6 (syscall.fill b d) (Z.of_nat (length d)) h uh ->
     (forall a, sa hdl <> syscall.Inet6 a) ->
     readFromIpv6 dec6 hdl b (syscall.RecvDatagram d) =
     Panic TypeAssertionFailed).
Proof.
  split.
  - intros hdl b d h uh (Hchk & Ht & Hb) Hsa.
    pose proof (passes_ipv4_checks_len _ _ _ _ _ Hchk) as Hlen.
    pose proof (len_le_cap (syscall.fill b d)) as Hcap.
    set (b' := syscall.fill b d) in *.
    destruct (reslice_in_range b' 28 (Z.min (ipv4.TotalLen h) (len b')))
      as (pb & Hpb & _); [apply len_pos_not_nil; lia | lia | lia |].
    rewrite (readFromIpv4_past_checks dec4 hdl b d h uh Hchk). fold b'.
    rewrite payloadlen_ipv4_min by lia. cbn [mbind exec_bind].
    unfold int_add. rewrite int_wrap_id by (unfold maxInt in *; lia).
    replace (28 + (Z.min (ipv4.TotalLen h) (len b') - 28))
      with (Z.min (ipv4.TotalLen h) (len b')) by lia.
    rewrite Hpb. cbn [mbind exec_bind].
    destruct (sa hdl) as [|a4|a6|]; try reflexivity.
    exfalso. apply (Hsa a4). reflexivity.
  - intros hdl b d h uh (Hchk & Hp & Hn & Hcap) Hsa.
    pose proof (reaches_ipv6_length_check_len _ _ _ _ Hchk) as Hlen.
    set (b' := syscall.fill b d) in *.
    destruct (reslice_in_range b' 48 (Z.of_nat (length d)))
      as (pb & Hpb & _); [apply len_pos_not_nil; lia | lia | lia |].
    rewrite (readFromIpv6_past_checks dec6 hdl b d h uh Hchk). fold b'.
    unfold int_add. rewrite int_wrap_id by (unfold maxInt; lia).
    apply Z.eqb_eq in Hn. rewrite Hn, Hpb. cbn [mbind exec_bind].
    destruct (sa hdl) as [|a4|a6|]; try reflexivity.
    exfalso. apply (Hsa a6). reflexivity.
Qed.

(** X13. The IPv4 path returns, and does not panic, for every frame read into
    a buffer that is not empty by a reader with an IPv4 address, provided the
    IP-header decoder returns and accepts only buffers of at least 20 bytes
    with a declared total length between 28 and 65535. *)
Theorem readFromIpv4_returns hdl b d oh oe a :
  0 < len b ->
  len b <= maxInt ->
  sa hdl = syscall.Inet4 a ->
  dec4 (syscall.fill b d) = Return (oh, oe) ->
  (oe = None ->
   exists h, oh = Some h /\ 28 <= ipv4.TotalLen h <= 65535 /\ 20 <= len b) ->
  exists res, readFromIpv4 dec4 hdl b (syscall.RecvDatagram d) = Return res.
Proof.
  intros Hne Hb Hsa Hdec Hok.
  set (b' := syscall.fill b d).
  assert (Hlen : len b' = len b) by apply len_fill.
  destruct (index_0_nonempty b') as [x H0]; [lia|].
  pose proof (index_not_nil _ _ _ H0) as Hnn.
  unfold readFromIpv4. rewrite Recvfrom_datagram. fold b'. rewrite H0.
  cbn [mbind exec_bind].
  destruct (negb (Byte.eqb x x45)); [eauto|].
  destruct (Z.of_nat (length d) <? 20 + UDPHeaderLen); [eauto|].
  fold b' in Hdec. rewrite Hdec. cbn [mbind exec_bind].
  destruct oe as [msg|]; [eauto|].
  destruct (Hok eq_refl) as (h & -> & Ht & H20).
  destruct (Z.lt_ge_cases (len b') 28) as [Hs | Hl].
  - pose proof (ParseUDPHeader_at_short b' 20 ltac:(lia) Hnn) as E.
    change (Z.of_nat 20) with 20 in E.
    destruct (reslice_from b' 20) as [b20|];
      cbn [mbind exec_bind] in E |- *; [|discriminate].
    rewrite E. eauto.
  - pose proof (ParseUDPHeader_at b' 20 ltac:(lia)) as E.
    change (Z.of_nat 20) with 20 in E.
    destruct (reslice_from b' 20) as [b20|];
      cbn [mbind exec_bind] in E |- *; [|discriminate].
    rewrite E. cbn [mbind exec_bind].
    change (20 + UDPHeaderLen) with 28.
    rewrite payloadlen_ipv4_min by lia. cbn [mbind exec_bind].
    unfold int_add. rewrite int_wrap_id by (unfold maxInt in *; lia).
    pose proof (len_le_cap b') as Hcap.
    destruct (reslice_in_range b' 28
                (28 + (Z.min (ipv4.TotalLen h) (len b') - 28)))
      as (pb & Hpb & _); [exact Hnn | lia | lia |].
    rewrite Hpb, Hsa. cbn [assert_Inet4 mbind exec_bind deref].
    destruct (negb _); eauto.
Qed.

(** X14. The IPv6 path returns, and does not panic, for every frame read into
    a buffer that is not empty by a reader with an IPv6 address, provided the
    IP-header decoder returns and accepts only buffers of at least 40 bytes
    with a 16-bit payload length, and a count equal to 40 plus that length
    lies between 48 and the capacity of the buffer. *)
Theorem readFromIpv6_returns hdl b d oh oe a :
  0 < len b ->
  sa hdl = syscall.Inet6 a ->
  dec6 (syscall.fill b d) = Return (oh, oe) ->
  (oe = None ->
   exists h, oh = Some h /\ 0 <= ipv6.PayloadLen h <= 65535 /\ 40 <= len b /\
             (Z.of_nat (length d) = 40 + ipv6.PayloadLen h ->
              48 <= Z.of_nat (length d) <= cap b)) ->
  exists res, readFromIpv6 dec6 hdl b (syscall.RecvDatagram d) = Return res.
Proof.
  intros Hne Hsa Hdec Hok.
  set (b' := syscall.fill b d).
  assert (Hlen : len b' = len b) by apply len_fill.
  assert (Hcap : cap b' = cap b) by apply cap_fill.
  destruct (index_0_nonempty b') as [x H0]; [lia|].
  pose proof (index_not_nil _ _ _ H0) as Hnn.
  unfold readFromIpv6. rewrite Recvfrom_datagram. fold b'. rewrite H0.
  cbn [mbind exec_bind].
  destruct (negb (Byte.eqb x x60)); [eauto|].
  fold b' in Hdec. rewrite Hdec. cbn [mbind exec_bind].
  destruct oe as [msg|]; [eauto|].
  destruct (Hok eq_refl) as (h & -> & Hp & H40 & Hn).
  change ipv6.HeaderLen with 40.
  destruct (Z.lt_ge_cases (len b') 48) as [Hs | Hl].
  - pose proof (ParseUDPHeader_at_short b' 40 ltac:(lia) Hnn) as E.
    change (Z.of_nat 40) with 40 in E.
    destruct (reslice_from b' 40) as [b40|];
      cbn [mbind exec_bind] in E |- *; [|discriminate].
    rewrite E. eauto.
  - pose proof (ParseUDPHeader_at b' 40 ltac:(lia)) as E.
    change (Z.of_nat 40) with 40 in E.
    destruct (reslice_from b' 40) as [b40|];
      cbn [mbind exec_bind] in E |- *; [|discriminate].
    rewrite E. cbn [mbind exec_bind deref].
    unfold int_add at 1. rewrite int_wrap_id by (unfold maxInt; lia).
    destruct (Z.of_nat (length d) =? 40 + ipv6.PayloadLen h) eqn:Heq;
      cbn [negb]; [|eauto].
    apply Z.eqb_eq in Heq. specialize (Hn Heq).
    change (int_add 40 UDPHeaderLen) with 48.
    destruct (reslice_in_range b' 48 (Z.of_nat (length d)))
      as (pb & Hpb & _); [exact Hnn | lia | lia |].
    rewrite Hpb, Hsa. cbn [assert_Inet6 mbind exec_bind deref].
    destruct (negb _); eauto.
Qed.

Lemma readfrom_classified ohdl b reply res :
  readfrom dec4 dec6 ohdl b reply = Return res ->
  match ohdl with
  | None => res = Results (-1) None None SliceNil (Some ErrInvalidConn)
  | Some hdl =>
      if isIpv4 hdl then ipv4_outcome hdl reply res
      else ipv6_outcome hdl reply res
  end.
Proof.
  destruct ohdl as [hdl|]; cbn [readfrom].
  - destruct (isIpv4 hdl).
    + apply readFromIpv4_classified.
    + apply readFromIpv6_classified.
  - intros [= <-]. reflexivity.
Qed.

Lemma outcome_not_invalid_conn hdl reply res :
  (if isIpv4 hdl then ipv4_outcome hdl reply res
   else ipv6_outcome hdl reply res) ->
  res_err res <> Some ErrInvalidConn.
Proof.
  destruct (isIpv4 hdl); intros Hout; inversion Hout; subst; discriminate.
Qed.

(** X15. The dispatch returns [ErrInvalidConn] exactly for the nil handler,
    with the count -1 and no structures.  For a handler that is not nil the
    path is chosen by the family fixed at construction, never by the frame:
    the result is an outcome of the IPv4 path when [isIpv4] is set and an
    outcome of the IPv6 path otherwise. *)
Theorem readfrom_invalid_conn_iff ohdl b reply res :
  readfrom dec4 dec6 ohdl b reply = Return res ->
  (res_err res = Some ErrInvalidConn <-> ohdl = None) /\
  (ohdl = None ->
   res = Results (-1) None None SliceNil (Some ErrInvalidConn)) /\
  (forall hdl, ohdl = Some hdl ->
     if isIpv4 hdl then ipv4_outcome hdl reply res
     else ipv6_outcome hdl reply res).
Proof.
  intros H. apply readfrom_classified in H.
  destruct ohdl as [hdl|].
  - split; [|split].
    + split; [|discriminate]. intros Herr.
      exfalso. exact (outcome_not_invalid_conn _ _ _ H Herr).
    + discriminate.
    + intros ? [= <-]. exact H.
  - subst res. split; [|split]; [tauto | reflexivity | discriminate].
Qed.

(** X16. The exported read of a [Conn] never returns [ErrInvalidConn]: the
    handler of a [Conn] is embedded by value and never nil, and a nil [Conn]
    panics before the check. *)
Theorem Readfrom__never_invalid_conn c b reply :
  (forall res, Readfrom_ dec4 dec6 c b reply = Return res ->
               res_err res <> Some ErrInvalidConn) /\
  (c = None -> Readfrom_ dec4 dec6 c b reply = Panic NilDereference).
Proof.
  split.
  - destruct c as [c|]; [|discriminate].
    unfold Readfrom_. cbn [handler_of deref mbind exec_bind mret exec_ret].
    intros res H. apply readfrom_classified in H.
    exact (outcome_not_invalid_conn _ _ _ H).
  - intros ->. reflexivity.
Qed.

End ReadPathStages.

(** The outcomes of the IPv4 path at a frame for another port. *)
Lemma readFromIpv4_outcomes_witness :
  exists pb,
    ipv4_outcome reader4 (syscall.RecvDatagram (frame4 x45 x28 x36 12))
      (Results 40
         (Some {| Ipv4Header := Some (header4 40); Ipv6Header := None |})
         (Some (mkUdpHeader 53 54 16 0)) pb (Some ErrNotDestPort)).
Proof.
  eexists.
  apply (readFromIpv4_outcomes ipv4.ParseHeader reader4 buffer64).
  vm_compute. reflexivity.
Defined.

Lemma readFromIpv6_outcomes_witness :
  ipv6_outcome reader6 (syscall.RecvDatagram (frame6 x60 x0b x35 2))
    (Results 50
       (Some {| Ipv4Header := None; Ipv6Header := Some (header6 11) |})
       None SliceNil (Some ErrPayloadLen)).
Proof.
  apply (readFromIpv6_outcomes ipv6.ParseHeader reader6 buffer64).
  vm_compute. reflexivity.
Defined.

Lemma readFromIpv4_short_frame_witness :
  readFromIpv4 ipv4.ParseHeader reader4 buffer64
               (syscall.RecvDatagram (take 27 (frame4 x45 x28 x35 0))) =
  Return (Results 27 None None SliceNil (Some ErrHeaderTooShort)).
Proof.
  apply (readFromIpv4_short_frame ipv4.ParseHeader reader4 buffer64
           (take 27 (frame4 x45 x28 x35 0))); run_closed.
Defined.

(** A buffer of 10 bytes is too short for either decoder. *)
Lemma ip_decoder_error_propagates_witness :
  readFromIpv4 ipv4.ParseHeader reader4 (Slice (replicate 10 xff) [])
               (syscall.RecvDatagram (frame4 x45 x28 x35 12)) =
    Return (Results 40 None None SliceNil
                    (Some (ErrForeign ipv4.errHeaderTooShort))) /\
  readFromIpv6 ipv6.ParseHeader reader6 (Slice (replicate 10 xff) [])
               (syscall.RecvDatagram (frame6 x60 x0a x35 2)) =
    Return (Results 50 None None SliceNil
                    (Some (ErrForeign ipv6.errHeaderTooShort))).
Proof.
  destruct (ip_decoder_error_propagates ipv4.ParseHeader ipv6.ParseHeader)
    as [H4 H6].
  split.
  - apply (H4 reader4 (Slice (replicate 10 xff) [])
              (frame4 x45 x28 x35 12) None); run_closed.
  - apply (H6 reader6 (Slice (replicate 10 xff) [])
              (frame6 x60 x0a x35 2) None); run_closed.
Defined.

(** Buffers of 24 and of 44 bytes hold the IP header and half a UDP header. *)
Lemma udp_header_too_short_keeps_ip_header_witness :
  readFromIpv4 ipv4.ParseHeader reader4 (Slice (replicate 24 xff) [])
               (syscall.RecvDatagram (frame4 x45 x28 x35 12)) =
    Return (Results 40
              (Some {| Ipv4Header := Some (header4 40); Ipv6Header := None |})
              None SliceNil (Some ErrHeaderTooShort)) /\
  readFromIpv6 ipv6.ParseHeader reader6 (Slice (replicate 44 xff) [])
               (syscall.RecvDatagram (frame6 x60 x0a x35 2)) =
    Return (Results 50
              (Some {| Ipv4Header := None; Ipv6Header := Some (header6 10) |})
              None SliceNil (Some ErrHeaderTooShort)).
Proof.
  destruct (udp_header_too_short_keeps_ip_header ipv4.ParseHeader
              ipv6.ParseHeader) as [H4 H6].
  split.
  - apply (H4 reader4 (Slice (replicate 24 xff) [])
              (frame4 x45 x28 x35 12) (Some (header4 40))); run_closed.
  - apply (H6 reader6 (Slice (replicate 44 xff) [])
              (frame6 x60 x0a x35 2) (Some (header6 10))); run_closed.
Defined.

Lemma readFromIpv4_returns_datagram_payload_witness :
  exists spare,
    readFromIpv4 ipv4.ParseHeader reader4 buffer64
                 (syscall.RecvDatagram (frame4 x45 x28 x35 12)) =
    Return (Results 40
              (Some {| Ipv4Header := Some (header4 40); Ipv6Header := None |})
              (Some (mkUdpHeader 53 53 16 0))
              (Slice (replicate 12 xaa) spare) None).
Proof.
  apply (readFromIpv4_returns_datagram_payload ipv4.ParseHeader reader4
           buffer64 (frame4 x45 x28 x35 12) (header4 40)
           (mkUdpHeader 53 53 16 0)
           (syscall.mkSockaddrInet4 53 [x0a; x00; x00; x01]));
    run_closed.
Defined.

Lemma readFromIpv6_returns_datagram_payload_witness :
  exists spare,
    readFromIpv6 ipv6.ParseHeader reader6 buffer64
                 (syscall.RecvDatagram (frame6 x60 x0a x35 2)) =
    Return (Results 50
              (Some {| Ipv4Header := None; Ipv6Header := Some (header6 10) |})
              (Some (mkUdpHeader 53 53 16 0))
              (Slice [xaa; xaa] spare) None).
Proof.
  apply (readFromIpv6_returns_datagram_payload ipv6.ParseHeader reader6
           buffer64 (frame6 x60 x0a x35 2) (header6 10)
           (mkUdpHeader 53 53 16 0)
           (syscall.mkSockaddrInet6 53 0 (replicate 16 x00)));
    run_closed.
Defined.

Lemma wrong_address_type_panics_witness :
  readFromIpv4 ipv4.ParseHeader reader4_wrong_address buffer64
               (syscall.RecvDatagram (frame4 x45 x28 x35 12)) =
    Panic TypeAssertionFailed /\
  readFromIpv6 ipv6.ParseHeader reader6_no_address buffer64
               (syscall.RecvDatagram (frame6 x60 x0a x35 2)) =
    Panic TypeAssertionFailed.
Proof.
  destruct (wrong_address_type_panics ipv4.ParseHeader ipv6.ParseHeader)
    as [H4 H6].
  split.
  - apply (H4 reader4_wrong_address buffer64 (frame4 x45 x28 x35 12)
              (header4 40) (mkUdpHeader 53 53 16 0)).
    + run_closed.
    + intros a. discriminate.
  - apply (H6 reader6_no_address buffer64 (frame6 x60 x0a x35 2)
              (header6 10) (mkUdpHeader 53 53 16 0)).
    + run_closed.
    + intros a. discriminate.
Defined.

Lemma readFromIpv4_returns_witness :
  exists res,
    readFromIpv4 ipv4.ParseHeader reader4 buffer64
                 (syscall.RecvDatagram (frame4 x45 x28 x35 12)) = Return res.
Proof.
  apply (readFromIpv4_returns ipv4.ParseHeader reader4 buffer64
           (frame4 x45 x28 x35 12) (Some (header4 40)) None
           (syscall.mkSockaddrInet4 53 [x0a; x00; x00; x01])).
  - run_closed.
  - run_closed.
  - reflexivity.
  - vm_compute. reflexivity.
  - intros _. exists (header4 40). run_closed.
Defined.

Lemma readFromIpv6_returns_witness :
  exists res,
    readFromIpv6 ipv6.ParseHeader reader6 buffer64
                 (syscall.RecvDatagram (frame6 x60 x0a x35 2)) = Return res.
Proof.
  apply (readFromIpv6_returns ipv6.ParseHeader reader6 buffer64
           (frame6 x60 x0a x35 2) (Some (header6 10)) None
           (syscall.mkSockaddrInet6 53 0 (replicate 16 x00))).
  - run_closed.
  - reflexivity.
  - vm_compute. reflexivity.
  - intros _. exists (header6 10). run_closed.
Defined.

Lemma readfrom_invalid_conn_iff_witness :
  (res_err (Results (-1) None None SliceNil (Some ErrInvalidConn)) =
   Some ErrInvalidConn <-> (None : option handler) = None) /\
  ipv4_outcome reader4 (syscall.RecvDatagram [x60])
    (Results 1 None None SliceNil (Some ErrNotIpv4)).
Proof.
  split.
  - apply (readfrom_invalid_conn_iff ipv4.ParseHeader ipv6.ParseHeader None
             buffer64 (syscall.RecvDatagram [x60])).
    reflexivity.
  - apply (proj2 (proj2 (readfrom_invalid_conn_iff ipv4.ParseHeader
                           ipv6.ParseHeader (Some reader4) buffer64
                           (syscall.RecvDatagram [x60])
                           (Results 1 None None SliceNil (Some ErrNotIpv4))
                           eq_refl)) reader4 eq_refl).
Defined.

Lemma Readfrom__never_invalid_conn_witness :
  res_err (Results 50 None None SliceNil (Some ErrNotIpv4)) <>
    Some ErrInvalidConn /\
  Readfrom_ ipv4.ParseHeader ipv6.ParseHeader None buffer64
            (syscall.RecvDatagram (frame6 x60 x0a x35 2)) =
    Panic NilDereference.
Proof.
  split.
  - apply (proj1 (Readfrom__never_invalid_conn ipv4.ParseHeader
                    ipv6.ParseHeader (Some conn4) buffer64
                    (syscall.RecvDatagram (frame6 x60 x0a x35 2)))).
    vm_compute. reflexivity.
  - apply (proj2 (Readfrom__never_invalid_conn ipv4.ParseHeader
                    ipv6.ParseHeader None buffer64
                    (syscall.RecvDatagram (frame6 x60 x0a x35 2)))).
    reflexivity.
Defined.

(** ** Construction *)

Lemma lowest_free_from_fresh (fuel : nat) (i : Z) (open : gset Z) :
  (size (filter (fun x : Z => (i <= x)%Z) open) <= fuel)%nat ->
  syscall.lowest_free_from fuel i open ∉ open.
Proof.
  revert i. induction fuel as [|fuel IH]; intros i Hsize;
    cbn [syscall.lowest_free_from].
  - intros Hin.
    assert (Hi : i ∈ filter (fun x : Z => (i <= x)%Z) open)
      by (apply elem_of_filter; split; [lia | exact Hin]).
    assert (Hz : size (filter (fun x : Z => (i <= x)%Z) open) = 0%nat) by lia.
    apply size_empty_inv in Hz. rewrite Hz in Hi.
    exact (not_elem_of_empty i Hi).
  - destruct (decide (i ∈ open)) as [Hin | Hnin]; [|exact Hnin].
    apply IH.
    assert (Hsub : filter (fun x : Z => (i + 1 <= x)%Z) open ⊂
                   filter (fun x : Z => (i <= x)%Z) open).
    { split.
      - intros x [Hx Hxo]%elem_of_filter. apply elem_of_filter.
        split; [lia | exact Hxo].
      - intros Hsup.
        assert (Hi : i ∈ filter (fun x : Z => (i + 1 <= x)%Z) open).
        { apply Hsup, elem_of_filter. split; [lia | exact Hin]. }
        apply elem_of_filter in Hi as [Hi _]. lia. }
    apply subset_size in Hsub. lia.
Qed.

(** The descriptor a successful socket call returns was not open before. *)
Lemma Socket_fresh (open : gset Z) :
  (fst (syscall.Socket open) ∉ open) /\
  snd (syscall.Socket open) = open ∪ {[fst (syscall.Socket open)]}.
Proof.
  unfold syscall.Socket. cbn [fst snd]. split; [|reflexivity].
  apply lowest_free_from_fresh.
  apply subseteq_size. intros x [_ Hx]%elem_of_filter. exact Hx.
Qed.

Lemma Close_after_open c (open : gset Z) :
  Conn_fd c ∉ open ->
  Close (Some c) (open ∪ {[Conn_fd c]}) = Return (None, open).
Proof.
  intros Hfresh. unfold Close.
  cbn [handler_of deref mbind exec_bind ok negb mret exec_ret].
  unfold syscall.Close.
  rewrite decide_True
    by (apply elem_of_union_r, elem_of_singleton; reflexivity).
  do 2 f_equal. apply set_eq. intros x.
  rewrite elem_of_difference, elem_of_union, elem_of_singleton.
  split.
  - intros [[Hx | Hx] Hne]; [exact Hx | contradiction].
  - intros Hx. split; [left; exact Hx | intros ->; contradiction].
Qed.

(** [newConn], by the answers of the system. *)
Lemma newConn_cases env sa isIpv4 ifname (open : gset Z) :
  newConn env sa isIpv4 ifname open =
  match socket_errno env syscall.AF_PACKET syscall.SOCK_DGRAM
                     (ethertype isIpv4) with
  | Some e => Return (None, Some (Errno e), open)
  | None =>
      match InterfaceByName env ifname with
      | None => Panic NilDereference
      | Some i =>
          let fd := fst (syscall.Socket open) in
          if bind_errno env fd (bind_address isIpv4 i) =? syscall.ENOENT
          then Return (None, Some (Errno syscall.ENOENT), open ∪ {[fd]})
          else Return (Some (mkConn fd sa isIpv4 (mkHandler fd sa isIpv4)),
                       None, open ∪ {[fd]})
      end
  end.
Proof.
  unfold newConn, syscall_Socket, ethertype.
  destruct (socket_errno env _ _ _) as [e|]; [reflexivity|].
  cbn [syscall.Socket fst snd].
  destruct (InterfaceByName env ifname) as [i|]; [|reflexivity].
  cbn [deref mbind exec_bind errors_Is_ErrNotExist].
  assert (Hsll : forall v,
            htons (uint16_wrap (if isIpv4 then syscall.ETH_P_IP
                                else syscall.ETH_P_IPV6)) = v ->
            v = if isIpv4 then 0x0008 else 0xdd86)
    by (intros v <-; destruct isIpv4; reflexivity).
  rewrite (Hsll _ eq_refl).
  unfold bind_address. change syscall.AF_PACKET with 17.
  destruct (_ =? syscall.ENOENT) eqn:E; [|reflexivity].
  apply Z.eqb_eq in E. rewrite E. reflexivity.
Qed.

Lemma newConn_success env sa isIpv4 ifname (open : gset Z) c err open' :
  newConn env sa isIpv4 ifname open = Return (Some c, err, open') ->
  err = None /\
  c = mkConn (Conn_fd c) sa isIpv4 (mkHandler (Conn_fd c) sa isIpv4) /\
  (Conn_fd c ∉ open) /\
  open' = open ∪ {[Conn_fd c]}.
Proof.
  rewrite newConn_cases.
  destruct (socket_errno env _ _ _) as [e|]; [discriminate|].
  destruct (InterfaceByName env ifname) as [i|]; [|discriminate].
  cbv zeta.
  destruct (_ =? syscall.ENOENT); [discriminate|].
  intros [= <- <- <-]. cbn [Conn_fd].
  pose proof (Socket_fresh open) as [Hfresh _].
  repeat split; try reflexivity. exact Hfresh.
Qed.

(** X17. [newConn] returns an error in two cases only, and then no [Conn]:
    the socket call failed, with its errno and the descriptor table as it
    was; or bind answered [ENOENT] for the link-layer address of the
    interface, and then the descriptor the socket call opened is still open
    when [newConn] returns. *)
Theorem newConn_error_cases env sa isIpv4 ifname (open : gset Z) oc err open' :
  newConn env sa isIpv4 ifname open = Return (oc, Some err, open') ->
  oc = None /\
  ((exists e,
      socket_errno env syscall.AF_PACKET syscall.SOCK_DGRAM
                   (ethertype isIpv4) = Some e /\
      err = Errno e /\ open' = open) \/
   (exists i fd,
      InterfaceByName env ifname = Some i /\
      bind_errno env fd (bind_address isIpv4 i) = syscall.ENOENT /\
      err = Errno syscall.ENOENT /\
      (fd ∉ open) /\ open' = open ∪ {[fd]})).
Proof.
  rewrite newConn_cases.
  destruct (socket_errno env _ _ _) as [e|].
  { intros [= <- <- <-]. split; [reflexivity|]. left. eauto. }
  destruct (InterfaceByName env ifname) as [i|]; [|discriminate].
  cbv zeta.
  destruct (_ =? syscall.ENOENT) eqn:E; [|discriminate].
  apply Z.eqb_eq in E. intros [= <- <- <-]. split; [reflexivity|].
  right. exists i, (fst (syscall.Socket open)).
  repeat split; try assumption; try reflexivity.
  apply Socket_fresh.
Qed.

Lemma newConn_error_cases_witness :
  exists fd : Z,
    (fd ∉ ({[0; 1; 2]} : gset Z)) /\
    ({[0; 1; 2; 3]} : gset Z) = {[0; 1; 2]} ∪ {[fd]}.
Proof.
  destruct (newConn_error_cases (env_eth0 None 2) (sa reader4) true "eth0"
              {[0; 1; 2]} None (Errno 2) {[0; 1; 2; 3]})
    as (_ & [(e & He & _) | (i & fd & _ & _ & _ & Hfresh & Hopen)]).
  - vm_compute. reflexivity.
  - discriminate He.
  - exists fd. split; assumption.
Defined.

(** X18. Every other answer of bind, failures included, is ignored: when the
    socket call succeeds and the interface exists, [newConn] returns a [Conn]
    on the new descriptor and no error unless bind answered [ENOENT].  The
    address bound has family [AF_PACKET], the ethertype in network byte order
    ([0x0008] or [0xdd86]) and the index of the interface. *)
Theorem newConn_ignores_other_bind_errors env sa isIpv4 ifname
    (open : gset Z) i :
  socket_errno env syscall.AF_PACKET syscall.SOCK_DGRAM (ethertype isIpv4) =
    None ->
  InterfaceByName env ifname = Some i ->
  bind_errno env (fst (syscall.Socket open)) (bind_address isIpv4 i) <>
    syscall.ENOENT ->
  exists c,
    newConn env sa isIpv4 ifname open =
    Return (Some c, None, open ∪ {[Conn_fd c]}) /\
    Conn_fd c = fst (syscall.Socket open).
Proof.
  intros Hs Hi Hb. rewrite newConn_cases, Hs, Hi. cbv zeta.
  apply Z.eqb_neq in Hb. rewrite Hb.
  exists (mkConn (fst (syscall.Socket open)) sa isIpv4
                 (mkHandler (fst (syscall.Socket open)) sa isIpv4)).
  split; reflexivity.
Qed.

(** Bind refused with [EACCES] (13): a [Conn] all the same. *)
Lemma newConn_ignores_other_bind_errors_witness :
  exists c,
    newConn (env_eth0 None 13) (sa reader4) true "eth0" {[0; 1; 2]} =
    Return (Some c, None, {[0; 1; 2]} ∪ {[Conn_fd c]}) /\
    Conn_fd c = fst (syscall.Socket {[0; 1; 2]}).
Proof.
  apply (newConn_ignores_other_bind_errors (env_eth0 None 13) (sa reader4)
           true "eth0" {[0; 1; 2]} (net.mkInterface 2 1500 "eth0")).
  - reflexivity.
  - reflexivity.
  - vm_compute. discriminate.
Defined.

(** X19. A [Conn] that [newConn] returns comes without an error and holds
    the address and the family it was given; its embedded handler holds the
    same descriptor, address and family as the [Conn] itself, so that [Close]
    closes the descriptor the reads receive on; that descriptor was not open
    before and is open afterwards; and a [Close] that follows succeeds and
    leaves the descriptor table as it was before [newConn]. *)
Theorem newConn_then_Close env sa isIpv4 ifname (open : gset Z) c err open' :
  newConn env sa isIpv4 ifname open = Return (Some c, err, open') ->
  err = None /\
  Conn_sa c = sa /\ Conn_isIpv4 c = isIpv4 /\
  Conn_handler c = mkHandler (Conn_fd c) sa isIpv4 /\
  (Conn_fd c ∉ open) /\
  open' = open ∪ {[Conn_fd c]} /\
  Close (Some c) open' = Return (None, open).
Proof.
  intros H.
  destruct (newConn_success _ _ _ _ _ _ _ _ H) as (-> & Hc & Hfresh & ->).
  repeat split; try exact Hfresh; try (rewrite Hc; reflexivity).
  apply Close_after_open. exact Hfresh.
Qed.

Lemma newConn_then_Close_witness :
  Close (Some conn4) {[0; 1; 2; 3]} = Return (None, {[0; 1; 2]}).
Proof.
  apply (newConn_then_Close (env_eth0 None 0) (sa reader4) true "eth0"
           {[0; 1; 2]} conn4 None {[0; 1; 2; 3]}).
  vm_compute. reflexivity.
Defined.

(** X20. A name that resolves to no interface is never reported: the error
    of the lookup is overwritten by the socket call, so [newConn] returns
    only when the socket call fails, with that errno, and panics on the nil
    interface when the socket call succeeds. *)
Theorem newConn_unknown_interface env sa isIpv4 ifname (open : gset Z) :
  InterfaceByName env ifname = None ->
  (socket_errno env syscall.AF_PACKET syscall.SOCK_DGRAM (ethertype isIpv4) =
     None ->
   newConn env sa isIpv4 ifname open = Panic NilDereference) /\
  (forall e,
     socket_errno env syscall.AF_PACKET syscall.SOCK_DGRAM (ethertype isIpv4) =
       Some e ->
     newConn env sa isIpv4 ifname open =
     Return (None, Some (Errno e), open)).
Proof.
  intros Hi. rewrite newConn_cases, Hi. split.
  - intros ->. reflexivity.
  - intros e ->. reflexivity.
Qed.

Lemma newConn_unknown_interface_witness :
  newConn (env_eth0 None 0) (sa reader4) true "wlan9" {[0; 1; 2]} =
    Panic NilDereference /\
  newConn (env_eth0 (Some 1) 0) (sa reader4) true "wlan9" {[0; 1; 2]} =
    Return (None, Some (Errno 1), {[0; 1; 2]}).
Proof.
  split.
  - apply (proj1 (newConn_unknown_interface (env_eth0 None 0) (sa reader4)
                    true "wlan9" {[0; 1; 2]} eq_refl)).
    reflexivity.
  - apply (proj2 (newConn_unknown_interface (env_eth0 (Some 1) 0)
                    (sa reader4) true "wlan9" {[0; 1; 2]} eq_refl)).
    reflexivity.
Defined.

(** X21. [NewConn] takes the family from the dynamic type of the address: an
    IPv4 address gives an IPv4 reader and an IPv6 address an IPv6 reader, and
    the type assertion of the chosen path then succeeds.  An address of any
    other type, or none at all, is accepted as well and gives an IPv6 reader
    whose type assertion panics. *)
Theorem NewConn_family env addr ifname (open : gset Z) c err open' :
  NewConn env addr ifname open = Return (Some c, err, open') ->
  (forall a, addr = syscall.Inet4 a ->
     isIpv4 (Conn_handler c) = true /\
     assert_Inet4 (sa (Conn_handler c)) = Return a) /\
  (forall a, addr = syscall.Inet6 a ->
     isIpv4 (Conn_handler c) = false /\
     assert_Inet6 (sa (Conn_handler c)) = Return a) /\
  ((forall a, addr <> syscall.Inet4 a) ->
   (forall a, addr <> syscall.Inet6 a) ->
     isIpv4 (Conn_handler c) = false /\
     assert_Inet6 (sa (Conn_handler c)) = Panic TypeAssertionFailed).
Proof.
  unfold NewConn. intros H.
  destruct (newConn_success _ _ _ _ _ _ _ _ H) as (_ & Hc & _).
  rewrite Hc. cbn [Conn_handler isIpv4 sa].
  split; [|split].
  - intros a ->. split; reflexivity.
  - intros a ->. split; reflexivity.
  - intros H4 H6. destruct addr as [|a4|a6|]; try (split; reflexivity).
    + exfalso. apply (H4 a4). reflexivity.
    + exfalso. apply (H6 a6). reflexivity.
Qed.

Lemma NewConn_family_witness :
  isIpv4 reader6_no_address = false /\
  assert_Inet6 (sa reader6_no_address) = Panic TypeAssertionFailed.
Proof.
  refine (proj2 (proj2 (NewConn_family (env_eth0 None 0) syscall.SockaddrNone
                          "eth0" {[0; 1; 2]}
                          (mkConn 3 syscall.SockaddrNone false
                                  reader6_no_address)
                          None {[0; 1; 2; 3]} _)) _ _).
  - vm_compute. reflexivity.
  - intros a. discriminate.
  - intros a. discriminate.
Defined.

(** ** Printing a header *)

Lemma no_space_uint u : no_space (DecimalString.NilEmpty.string_of_uint u).
Proof. induction u; cbn; repeat split; try discriminate; assumption. Qed.

Lemma no_space_d z : no_space (fmt.d z).
Proof.
  unfold fmt.d, DecimalString.NilZero.string_of_int,
    DecimalString.NilZero.string_of_uint.
  destruct (Z.to_int z) as [u|u]; destruct u; cbn; repeat split;
    try discriminate; apply no_space_uint.
Qed.

Lemma append_space_inj a a' r r' :
  no_space a -> no_space a' ->
  String.append a (String space r) = String.append a' (String space r') ->
  a = a' /\ r = r'.
Proof.
  revert a'. induction a as [|c a IH]; intros [|c' a'] Ha Ha'; cbn.
  - intros [= ->]. auto.
  - intros [= <- _]. destruct Ha' as [Hc _]. congruence.
  - intros [= -> _]. destruct Ha as [Hc _]. congruence.
  - intros [= -> H]. destruct Ha as [_ Ha]. destruct Ha' as [_ Ha'].
    destruct (IH a' Ha Ha' H) as [-> ->]. auto.
Qed.

Lemma fmt_d_inj a b : fmt.d a = fmt.d b -> a = b.
Proof.
  unfold fmt.d. intros H.
  assert (Hn : forall z, Z.to_int z <> Decimal.Pos Decimal.Nil /\
                         Z.to_int z <> Decimal.Neg Decimal.Nil).
  { intros [|p|p]; cbn; split; try discriminate; intros [= E];
      exact (DecimalPos.Unsigned.to_uint_nonnil p E). }
  pose proof (DecimalString.NilZero.isi _ (proj1 (Hn a)) (proj2 (Hn a))) as Ea.
  pose proof (DecimalString.NilZero.isi _ (proj1 (Hn b)) (proj2 (Hn b))) as Eb.
  rewrite H in Ea. rewrite Ea in Eb. injection Eb as Eb.
  rewrite <- (DecimalZ.of_to a), <- (DecimalZ.of_to b), Eb. reflexivity.
Qed.

Lemma hex_digits_inj n m :
  HexadecimalString.NilZero.string_of_uint (N.to_hex_uint n) =
  HexadecimalString.NilZero.string_of_uint (N.to_hex_uint m) -> n = m.
Proof.
  intros H.
  assert (Hn : forall k, N.to_hex_uint k <> Hexadecimal.Nil).
  { intros [|p]; cbn;
      [discriminate | apply HexadecimalPos.Unsigned.to_uint_nonnil]. }
  pose proof (HexadecimalString.NilZero.usu _ (Hn n)) as En.
  pose proof (HexadecimalString.NilZero.usu _ (Hn m)) as Em.
  rewrite H in En. rewrite En in Em. injection Em as Em.
  apply HexadecimalN.Unsigned.to_uint_inj. exact Em.
Qed.

Lemma fmt_sharp_x_inj a b : fmt.sharp_x a = fmt.sharp_x b -> a = b.
Proof.
  unfold fmt.sharp_x.
  destruct (a <? 0) eqn:Ha; destruct (b <? 0) eqn:Hb; cbn;
    try discriminate; intros [= H]; apply hex_digits_inj in H.
  - apply Z.ltb_lt in Ha, Hb. lia.
  - apply Z.ltb_ge in Ha, Hb. lia.
Qed.

(** X22. [String] prints ["<nil>"] exactly for the nil header, and it tells
    headers apart: two headers print the same text only if all four fields
    are equal, whatever values, negative ones included, the fields hold. *)
Theorem UdpHeader_String_injective :
  (forall h, UdpHeader_String h = "<nil>"%string <-> h = None) /\
  (forall h1 h2, UdpHeader_String h1 = UdpHeader_String h2 <-> h1 = h2).
Proof.
  assert (Hnil : forall h, UdpHeader_String h = "<nil>"%string <-> h = None).
  { intros [h|]; split; try reflexivity; discriminate. }
  split; [exact Hnil|].
  intros h1 h2. split; [|intros ->; reflexivity].
  destruct h1 as [[s1 d1 l1 c1]|], h2 as [[s2 d2 l2 c2]|];
    try reflexivity; try discriminate.
  unfold UdpHeader_String. cbn [SourcePort DestinationPort Length Checksum].
  intros H. cbn [String.append] in H. injection H as H.
  apply append_space_inj in H as [Hs H]; [|apply no_space_d..].
  apply fmt_d_inj in Hs. cbn [String.append] in H. injection H as H.
  apply append_space_inj in H as [Hd H]; [|apply no_space_d..].
  apply fmt_d_inj in Hd. cbn [String.append] in H. injection H as H.
  apply append_space_inj in H as [Hl H]; [|apply no_space_d..].
  apply fmt_d_inj in Hl. injection H as H.
  apply fmt_sharp_x_inj in H. congruence.
Qed.

(** ** The bounds of the payload slice *)

Lemma reslice_out_of_range b lo hi :
  hi < lo \/ cap b < hi ->
  reslice b lo hi = Panic SliceBoundsOutOfRange.
Proof.
  intros H. unfold reslice.
  destruct ((0 <=? lo) && (lo <=? hi) && (hi <=? cap b)) eqn:Hc;
    [|reflexivity].
  apply andb_prop in Hc as [Hc H3]. apply andb_prop in Hc as [H1 H2].
  apply Z.leb_le in H1, H2, H3. lia.
Qed.

Lemma fill_truncated l sp d :
  (length l <= length d)%nat ->
  syscall.fill (Slice l sp) d = Slice (take (length l) d) sp.
Proof.
  intros H. cbn [syscall.fill].
  rewrite drop_ge by exact H. rewrite app_nil_r. reflexivity.
Qed.

(** X23. When an IPv4 frame is at least as long as the buffer and declares
    at least the length of the buffer, the payload returned is what the
    buffer holds of the frame behind the two headers: bytes 28 to
    [len(buffer)] of the frame. *)
Theorem readFromIpv4_returns_truncated_payload dec4 hdl b d h uh a :
  passes_ipv4_checks dec4 (syscall.fill b d) (Z.of_nat (length d)) h uh ->
  len b <= ipv4.TotalLen h <= 65535 ->
  len b <= Z.of_nat (length d) ->
  sa hdl = syscall.Inet4 a ->
  exists spare,
    readFromIpv4 dec4 hdl b (syscall.RecvDatagram d) =
    Return (Results (Z.of_nat (length d))
                    (Some {| Ipv4Header := Some h; Ipv6Header := None |})
                    (Some uh)
                    (Slice (drop 28 (take (Z.to_nat (len b)) d)) spare)
                    (if syscall.Port4 a =? DestinationPort uh
                     then None else Some ErrNotDestPort)).
Proof.
  intros Hchk Ht Hfit Hsa.
  pose proof (passes_ipv4_checks_len _ _ _ _ _ Hchk) as Hlen.
  rewrite len_fill in Hlen.
  destruct b as [|l sp]; [unfold len in Hlen; simpl in Hlen; lia|].
  rewrite len_Slice in *. rewrite Nat2Z.id.
  rewrite (readFromIpv4_past_checks dec4 hdl _ d h _ Hchk).
  rewrite payloadlen_ipv4_min
    by (rewrite ?len_fill, ?len_Slice; unfold maxInt; lia).
  cbn [mbind exec_bind]. rewrite len_fill, len_Slice.
  unfold int_add. rewrite int_wrap_id by (unfold maxInt in *; lia).
  replace (28 + (Z.min (ipv4.TotalLen h) (Z.of_nat (length l)) - 28))
    with (Z.of_nat (length l)) by lia.
  rewrite fill_truncated by lia.
  pose proof (reslice_from_Slice (take (length l) d) sp 28) as E.
  unfold reslice_from in E. rewrite len_Slice, length_take in E.
  replace (length l `min` length d)%nat with (length l) in E by lia.
  change (Z.of_nat 28) with 28 in E. rewrite E by lia.
  cbn [mbind exec_bind]. rewrite Hsa. cbn [assert_Inet4 mbind exec_bind].
  eexists. reflexivity.
Qed.

(** X24. For a frame that passes the checks of the IPv4 path with a 16-bit
    declared total length, the path panics with a slice out of range exactly
    when the declared total length is below 28. *)
Theorem readFromIpv4_slice_panics_iff dec4 hdl b d h uh :
  passes_ipv4_checks dec4 (syscall.fill b d) (Z.of_nat (length d)) h uh ->
  0 <= ipv4.TotalLen h <= 65535 ->
  len b <= maxInt ->
  (readFromIpv4 dec4 hdl b (syscall.RecvDatagram d) =
   Panic SliceBoundsOutOfRange <-> ipv4.TotalLen h < 28).
Proof.
  intros Hchk Ht Hb.
  pose proof (passes_ipv4_checks_len _ _ _ _ _ Hchk) as Hlen.
  pose proof (len_le_cap (syscall.fill b d)) as Hcap.
  rewrite (readFromIpv4_past_checks dec4 hdl b d h uh Hchk).
  set (b' := syscall.fill b d) in *.
  assert (Hb' : len b' <= maxInt) by (unfold b'; rewrite len_fill; exact Hb).
  rewrite payloadlen_ipv4_min by assumption. cbn [mbind exec_bind].
  unfold int_add. rewrite int_wrap_id by (unfold maxInt in *; lia).
  destruct (Z.lt_ge_cases (ipv4.TotalLen h) 28) as [Hlt | Hge].
  - rewrite reslice_out_of_range by lia. tauto.
  - destruct (reslice_in_range b' 28
                (28 + (Z.min (ipv4.TotalLen h) (len b') - 28)))
      as (pb & Hpb & _); [apply len_pos_not_nil; lia | lia | lia |].
    rewrite Hpb. cbn [mbind exec_bind].
    split; [|lia].
    destruct (assert_Inet4 (sa hdl)) as [a|p] eqn:Ha; cbn [mbind exec_bind];
      [discriminate|].
    destruct (sa hdl); cbn in Ha; try discriminate;
      injection Ha as <-; discriminate.
Qed.

(** X25. For a frame that reaches the length check of the IPv6 path with a
    16-bit declared payload length that matches the count, the path panics
    with a slice out of range exactly when the count is below 48 or above
    the capacity of the buffer. *)
Theorem readFromIpv6_slice_panics_iff dec6 hdl b d h uh :
  reaches_ipv6_length_check dec6 (syscall.fill b d) h uh ->
  0 <= ipv6.PayloadLen h <= 65535 ->
  Z.of_nat (length d) = 40 + ipv6.PayloadLen h ->
  (readFromIpv6 dec6 hdl b (syscall.RecvDatagram d) =
   Panic SliceBoundsOutOfRange <->
   Z.of_nat (length d) < 48 \/ cap b < Z.of_nat (length d)).
Proof.
  intros Hchk Hp Hn.
  pose proof (reaches_ipv6_length_check_len _ _ _ _ Hchk) as Hlen.
  rewrite (readFromIpv6_past_checks dec6 hdl b d h uh Hchk).
  unfold int_add. rewrite int_wrap_id by (unfold maxInt; lia).
  pose proof Hn as Hn'. apply Z.eqb_eq in Hn'. rewrite Hn'.
  rewrite <- (cap_fill b d).
  set (b' := syscall.fill b d) in *.
  destruct (Z.lt_ge_cases (Z.of_nat (length d)) 48) as [Hlt | Hge].
  { rewrite reslice_out_of_range by lia. tauto. }
  destruct (Z.lt_ge_cases (cap b') (Z.of_nat (length d))) as [Hgt | Hle].
  { rewrite reslice_out_of_range by lia. tauto. }
  destruct (reslice_in_range b' 48 (Z.of_nat (length d)))
    as (pb & Hpb & _); [apply len_pos_not_nil; lia | lia | lia |].
  rewrite Hpb. cbn [mbind exec_bind].
  split; [|lia].
  destruct (assert_Inet6 (sa hdl)) as [a|p] eqn:Ha; cbn [mbind exec_bind];
    [discriminate|].
  destruct (sa hdl); cbn in Ha; try discriminate;
    injection Ha as <-; discriminate.
Qed.

(** A frame of 70 bytes read into the buffer of 64. *)
Lemma readFromIpv4_returns_truncated_payload_witness :
  exists spare,
    readFromIpv4 ipv4.ParseHeader reader4 buffer64
                 (syscall.RecvDatagram (frame4 x45 x46 x35 42)) =
    Return (Results 70
              (Some {| Ipv4Header := Some (header4 70); Ipv6Header := None |})
              (Some (mkUdpHeader 53 53 16 0))
              (Slice (replicate 36 xaa) spare) None).
Proof.
  apply (readFromIpv4_returns_truncated_payload ipv4.ParseHeader reader4
           buffer64 (frame4 x45 x46 x35 42) (header4 70)
           (mkUdpHeader 53 53 16 0)
           (syscall.mkSockaddrInet4 53 [x0a; x00; x00; x01]));
    run_closed.
Defined.

(** A declared total length of 27. *)
Lemma readFromIpv4_slice_panics_iff_witness :
  readFromIpv4 ipv4.ParseHeader reader4 buffer64
               (syscall.RecvDatagram (frame4 x45 x1b x35 12)) =
  Panic SliceBoundsOutOfRange.
Proof.
  apply (proj2 (readFromIpv4_slice_panics_iff ipv4.ParseHeader reader4
                  buffer64 (frame4 x45 x1b x35 12) (header4 27)
                  (mkUdpHeader 53 53 16 0)
                  ltac:(run_closed) ltac:(run_closed) ltac:(run_closed))).
  run_closed.
Defined.

(** A frame of 70 bytes, declared as such, read into the buffer of 64. *)
Lemma readFromIpv6_slice_panics_iff_witness :
  readFromIpv6 ipv6.ParseHeader reader6 buffer64
               (syscall.RecvDatagram (frame6 x60 x1e x35 22)) =
  Panic SliceBoundsOutOfRange.
Proof.
  apply (proj2 (readFromIpv6_slice_panics_iff ipv6.ParseHeader reader6
                  buffer64 (frame6 x60 x1e x35 22) (header6 30)
                  (mkUdpHeader 53 53 16 0)
                  ltac:(run_closed) ltac:(run_closed) ltac:(run_closed))).
  right. run_closed.
Defined.
